(** * MultiProfile backend: a shallow embedding of [src/index.js]

    The Express application of [src/index.js] is embedded handler by
    handler.  The external collaborators (the Supabase store, [bcryptjs],
    [uuid], the clock) are not part of the repository; they appear here as
    explicit inputs: the store is a record of tables together with an
    arbitrary failure oracle, the result of the password verifier on two
    strings is a section variable, the fresh token and the current time are
    arguments of the login handler, and whether the server gets to listen
    on a port is an argument of the start-up. *)

From Stdlib Require Import String Ascii List ZArith Bool.
From Stdlib Require Import Sorting.Sorted Sorting.Permutation.
Import ListNotations.
Local Open Scope string_scope.
Local Open Scope Z_scope.
Set Warnings "-register-all".

(** ** JSON values, as sent by [res.json] *)

Inductive json : Type :=
| JNull
| JBool (b : bool)
| JNum (n : Z)
| JStr (s : string)
| JArr (items : list json)
| JObj (fields : list (string * json)).



Definition keys (j : json) : list string :=
  match j with
  | JObj fs => map fst fs
  | _ => []
  end.

Definition js_null_or_str (o : option string) : json :=
  match o with
  | Some s => JStr s
  | None => JNull
  end.

(** ** JavaScript helpers *)

(** A request field or header is either absent ([undefined], [None]) or a
    string.  [!x] is true for [undefined] and for the empty string. *)
Definition falsy (x : option string) : bool :=
  match x with
  | None => true
  | Some EmptyString => true
  | Some (String _ _) => false
  end.

(** A field of a parsed JSON body is absent ([undefined], [None]) or any
    JSON value.  [!x] is true for [undefined], [null], [false], [0] and the
    empty string; arrays and objects are truthy. *)
Definition falsy_value (x : option json) : bool :=
  match x with
  | None => true
  | Some JNull => true
  | Some (JBool b) => negb b
  | Some (JNum n) => n =? 0
  | Some (JStr EmptyString) => true
  | Some _ => false
  end.

(** [x || null]: a falsy value becomes [null]. *)
Definition or_null (x : option string) : option string :=
  if falsy x then None else x.

(** [s.split(sep)] for a one-character separator. *)
Fixpoint split (sep : ascii) (s : string) : list string :=
  match s with
  | EmptyString => [EmptyString]
  | String c rest =>
      if Ascii.eqb c sep then EmptyString :: split sep rest
      else match split sep rest with
           | [] => [String c EmptyString]
           | w :: ws => String c w :: ws
           end
  end.

Definition space : ascii := " "%char.

(** [authHeader && authHeader.split(' ')[1]]: a falsy header is the value
    of the conjunction itself, otherwise the element of index 1 (absent,
    that is [undefined], when the array has a single element). *)
Definition header_token (authHeader : option string) : option string :=
  match authHeader with
  | None => None
  | Some EmptyString => Some EmptyString
  | Some h => nth_error (split space h) 1
  end.

(** [s] has no space character. *)
Fixpoint no_space (s : string) : bool :=
  match s with
  | EmptyString => true
  | String c rest => negb (Ascii.eqb c space) && no_space rest
  end.

(** ** Rows of the store

    Timestamps are milliseconds since the epoch ([Date.now()]); the ISO
    text produced by [toISOString] is a rendering of that number. *)

Record User : Type := mkUser {
  u_id : string;
  u_email : string;
  u_password_hash : option string;   (* [null] when the column is empty *)
  u_full_name : option string;
  u_subscription_type : option string;
  u_columns : list (string * json)   (* the remaining columns of the row *)
}.

Record Session : Type := mkSession {
  s_user_id : string;
  s_session_token : string;
  s_device_id : option string;
  s_ip_address : option string;
  s_user_agent : option string;
  s_expires_at : Z;
  s_is_active : bool
}.

Record Service : Type := mkService {
  sv_user_id : string;
  sv_is_active : bool;
  sv_created_at : Z;
  sv_columns : list (string * json)
}.

Record Db : Type := mkDb {
  users : list User;
  user_sessions : list Session;
  user_services : list Service
}.

(** A row of [user_sessions] selected together with its [users] relation:
    the session and the embedded owner ([null] when no user row has the session's
    [user_id]). *)
Record SessionWithUser : Type := mkJoined {
  j_session : Session;
  j_users : option User
}.

(** The queries the handlers send to the store. *)
Inductive StoreOp : Type :=
| SelectSessionByToken (token : string)
| SelectUserByEmail (email : string)
| InsertSession (row : Session)
| SelectServicesOfUser (uid : string).

(** What the store client does with a query: it answers, it resolves with
    an [error] object, or the awaited call throws. *)
Inductive Outcome : Type := Answered | Errored | Threw.

(** The [{ data, error }] object a query resolves to. *)
Record Reply (A : Type) : Type := mkReply {
  data : option A;
  error : bool
}.
Arguments mkReply {A} _ _.
Arguments data {A} _.
Arguments error {A} _.

(** [.single()]: exactly one row, otherwise an error and no data. *)
Definition single {A : Type} (rows : list A) : Reply A :=
  match rows with
  | [r] => mkReply (Some r) false
  | _ => mkReply None true
  end.

(** ** HTTP *)

Record Request : Type := mkRequest {
  authorization : option string;     (* req.headers['authorization'] *)
  body_email : option string;
  body_password : option json;       (* any JSON value: its type matters *)
  body_device_id : option string;
  ip : option string;                (* req.ip *)
  user_agent : option string         (* req.get('User-Agent') *)
}.

Record Response : Type := mkResponse {
  status : Z;
  body : json
}.

(** [res.status(code).json({ error: msg })] *)
Definition error_response (code : Z) (msg : string) : Response :=
  mkResponse code (JObj [("error", JStr msg)]).

(** What [authenticateToken] adds to the request: [req.user], [req.session]. *)
Record Context : Type := mkContext {
  req_user : option User;
  req_session : SessionWithUser
}.

Inductive AuthOutcome : Type :=
| Respond (r : Response)   (* the middleware answered itself *)
| Next (ctx : Context).    (* next() *)

(** ** The monad of handlers: store state, a log of the store queries, and
    exceptions *)

Record World : Type := mkWorld {
  db : Db;
  trace : list StoreOp
}.

Inductive Completion (A : Type) : Type :=
| Normal (a : A)
| Thrown.
Arguments Normal {A} _.
Arguments Thrown {A}.

Definition IO (A : Type) : Type := World -> Completion A * World.

Definition ret {A : Type} (a : A) : IO A := fun w => (Normal a, w).

Definition throw {A : Type} : IO A := fun w => (Thrown, w).

Definition bind {A B : Type} (m : IO A) (k : A -> IO B) : IO B :=
  fun w =>
    match m w with
    | (Normal a, w') => k a w'
    | (Thrown, w') => (Thrown, w')
    end.

(** [try { m } catch (error) { h }] *)
Definition try_catch {A : Type} (m : IO A) (h : IO A) : IO A :=
  fun w =>
    match m w with
    | (Normal a, w') => (Normal a, w')
    | (Thrown, w') => h w'
    end.

Declare Scope io_scope.
Delimit Scope io_scope with io.
Notation "x <- m ;; k" := (bind m (fun x => k))
  (at level 100, m at next level, right associativity) : io_scope.
Local Open Scope io_scope.

(** ** Queries on the tables *)

(** [.order('created_at', { ascending: false })] *)
Fixpoint insert_desc (x : Service) (l : list Service) : list Service :=
  match l with
  | [] => [x]
  | y :: t =>
      if sv_created_at y <=? sv_created_at x then x :: l
      else y :: insert_desc x t
  end.

Definition order_created_at_desc (l : list Service) : list Service :=
  fold_right insert_desc [] l.

(** The [users] relation embedded in a session row. *)
Definition embed_user (d : Db) (s : Session) : SessionWithUser :=
  mkJoined s (find (fun u => String.eqb (u_id u) (s_user_id s)) (users d)).

(** [.eq('session_token', token).eq('is_active', true)] *)
Definition active_with_token (token : string) (s : Session) : bool :=
  String.eqb (s_session_token s) token && s_is_active s.

(** [.eq('email', email)] *)
Definition with_email (email : string) (u : User) : bool :=
  String.eqb (u_email u) email.

(** [.eq('user_id', uid).eq('is_active', true)] *)
Definition active_of_user (uid : string) (sv : Service) : bool :=
  String.eqb (sv_user_id sv) uid && sv_is_active sv.

Definition add_session (row : Session) (d : Db) : Db :=
  mkDb (users d) (user_sessions d ++ [row]) (user_services d).

(** ** The login policy: seven days, in milliseconds *)
Definition session_lifetime_ms : Z := 7 * 24 * 60 * 60 * 1000.

(** ** JSON renderings *)

Definition service_json (sv : Service) : json :=
  JObj (("user_id", JStr (sv_user_id sv))
        :: ("is_active", JBool (sv_is_active sv))
        :: ("created_at", JNum (sv_created_at sv))
        :: sv_columns sv).

(** The [user] object of the login response. *)
Definition user_projection (user : User) : json :=
  JObj [("id", JStr (u_id user));
        ("email", JStr (u_email user));
        ("full_name", js_null_or_str (u_full_name user));
        ("subscription_type", js_null_or_str (u_subscription_type user))].

Definition login_success (sessionToken : string) (user : User) : Response :=
  mkResponse 200
    (JObj [("success", JBool true);
           ("token", JStr sessionToken);
           ("user", user_projection user)]).

Definition services_success (services : list Service) : Response :=
  mkResponse 200
    (JObj [("success", JBool true);
           ("services", JArr (map service_json services))]).

Definition invalid_credentials : Response :=
  error_response 401 "Credenciais inválidas".

Definition internal_error : Response :=
  error_response 500 "Erro interno do servidor".

Definition token_required : Response :=
  error_response 401 "Token de acesso necessário".

Definition token_invalid_or_expired : Response :=
  error_response 403 "Token inválido ou expirado".

Definition token_invalid : Response :=
  error_response 403 "Token inválido".

Definition fields_required : Response :=
  error_response 400 "Email e senha são obrigatórios".

Definition session_not_created : Response :=
  error_response 500 "Erro ao criar sessão".

Definition services_not_fetched : Response :=
  error_response 500 "Erro ao buscar serviços".

Section Handlers.

(** The store client is external: whether a query is answered, resolves
    with an error, or throws is left arbitrary. *)
Variable store_outcome : Db -> StoreOp -> Outcome.

(** What [bcrypt.compare] resolves to on two strings. *)
Variable bcrypt_compare : string -> string -> bool.

(** [await bcrypt.compare(password, hash)]: the library rejects, and the
    [await] throws, unless both arguments are strings. *)
Definition bcrypt_compare_await (password : json) (hash : option string)
  : IO bool :=
  match password, hash with
  | JStr s, Some h => ret (bcrypt_compare s h)
  | _, _ => throw
  end.

(** One awaited query: it is logged, and the oracle decides whether the
    store answers it. *)
Definition query {A : Type} (op : StoreOp) (answer : Db -> Reply A * Db)
  : IO (Reply A) :=
  fun w =>
    let tr := (trace w ++ [op])%list in
    match store_outcome (db w) op with
    | Threw => (Thrown, mkWorld (db w) tr)
    | Errored => (Normal (mkReply None true), mkWorld (db w) tr)
    | Answered =>
        let (r, d) := answer (db w) in (Normal r, mkWorld d tr)
    end.

(** [from('user_sessions').select(..., users).eq(...).eq(...).single()] *)
Definition findActiveSessionByToken (token : string)
  : IO (Reply SessionWithUser) :=
  query (SelectSessionByToken token)
    (fun d =>
       (single (map (embed_user d)
                  (filter (active_with_token token) (user_sessions d))), d)).

(** [from('users').select().eq('email', email).single()] *)
Definition findUserByEmail (email : string) : IO (Reply User) :=
  query (SelectUserByEmail email)
    (fun d => (single (filter (with_email email) (users d)), d)).

(** [from('user_sessions').insert(row).select().single()] *)
Definition insertSession (row : Session) : IO (Reply Session) :=
  query (InsertSession row)
    (fun d => (mkReply (Some row) false, add_session row d)).

(** [from('user_services').select().eq(...).eq(...).order(...)] *)
Definition listUserServices (uid : string) : IO (Reply (list Service)) :=
  query (SelectServicesOfUser uid)
    (fun d =>
       (mkReply
          (Some (order_created_at_desc
                   (filter (active_of_user uid) (user_services d))))
          false, d)).

(** ** [authenticateToken] *)
Definition authenticateToken (req : Request) : IO AuthOutcome :=
  let authHeader := authorization req in
  let token := header_token authHeader in
  match token with
  | None | Some EmptyString =>                        (* !token *)
      ret (Respond token_required)
  | Some token =>
      try_catch
        (r <- findActiveSessionByToken token ;;
         match error r, data r with
         | false, Some session =>
             ret (Next (mkContext (j_users session) session))
         | _, _ =>                                    (* error || !session *)
             ret (Respond token_invalid_or_expired)
         end)
        (ret (Respond token_invalid))
  end.

(** ** [POST /api/login]

    [now] is [Date.now()] and [sessionToken] is [uuidv4()]. *)
Definition login (now : Z) (sessionToken : string) (req : Request)
  : IO Response :=
  try_catch
    (match body_email req, body_password req with
     | Some (String _ _ as email), Some password =>
         if falsy_value (Some password)
         then ret fields_required                     (* !password *)
         else
           r <- findUserByEmail email ;;
           match error r, data r with
           | false, Some user =>
               validPassword <-
                 bcrypt_compare_await password (u_password_hash user) ;;
               if negb validPassword
               then ret invalid_credentials
               else
                 let expiresAt := now + session_lifetime_ms in
                 s <- insertSession
                        (mkSession (u_id user) sessionToken
                           (or_null (body_device_id req)) (ip req)
                           (user_agent req) expiresAt true) ;;
                 if error s
                 then ret session_not_created
                 else ret (login_success sessionToken user)
           | _, _ =>                                  (* userError || !user *)
               ret invalid_credentials
           end
     | _, _ =>                                        (* !email || !password *)
         ret fields_required
     end)
    (ret internal_error).

(** ** [GET /api/services], after [authenticateToken] called [next()] *)
Definition services_handler (ctx : Context) : IO Response :=
  try_catch
    (uid <- match req_user ctx with        (* req.user.id *)
            | Some user => ret (u_id user)
            | None => throw
            end ;;
     r <- listUserServices uid ;;
     if error r
     then ret services_not_fetched
     else ret (services_success
                 (match data r with         (* services || [] *)
                  | Some services => services
                  | None => []
                  end)))
    (ret internal_error).

(** The route: the middleware, then the handler. *)
Definition get_api_services (req : Request) : IO Response :=
  a <- authenticateToken req ;;
  match a with
  | Respond r => ret r
  | Next ctx => services_handler ctx
  end.

End Handlers.

(** ** Process start-up (lines 11-24 and 207 of [src/index.js]) *)

Record ProcessEnv : Type := mkEnv {
  SUPABASE_URL : option string;
  SUPABASE_ANON_KEY : option string;
  SUPABASE_SERVICE_ROLE_KEY : option string;
  PORT : option string
}.

(** The arguments a store client was created with. *)
Record Client : Type := mkClient {
  client_url : option string;
  client_key : option string
}.

Inductive Startup : Type :=
| Exited (code : Z)                 (* process.exit(code) *)
| Crashed                           (* createClient or app.listen failed *)
| Listening (port : string) (supabase supabaseAdmin : Client).

(** [!supabaseUrl || !supabaseKey] *)
Definition config_missing (e : ProcessEnv) : bool :=
  falsy (SUPABASE_URL e) || falsy (SUPABASE_ANON_KEY e).

(** [process.env.PORT || 3000] *)
Definition listen_port (e : ProcessEnv) : string :=
  match PORT e with
  | Some (String _ _ as p) => p
  | _ => "3000"
  end.

(** The constructor of the store's client library ([@supabase/supabase-js],
    not part of the repository) checks its two arguments before anything
    else: it throws ['supabaseUrl is required.'] on a falsy URL and
    ['supabaseKey is required.'] on a falsy key.  [None] stands for the
    throw. *)
Definition createClient (supabaseUrl supabaseKey : option string)
  : option Client :=
  if falsy supabaseUrl then None
  else if falsy supabaseKey then None
  else Some (mkClient supabaseUrl supabaseKey).

(** Start-up, for any client constructor and any [listen]: [listen port]
    tells whether [app.listen(port)] gets the server to listen (it does not
    for a port out of range or already in use, and the process then dies). *)
Definition startup
    (createClient : option string -> option string -> option Client)
    (listen : string -> bool)
    (e : ProcessEnv) : Startup :=
  let port := listen_port e in
  let supabaseUrl := SUPABASE_URL e in
  let supabaseKey := SUPABASE_ANON_KEY e in
  let supabaseServiceKey := SUPABASE_SERVICE_ROLE_KEY e in
  if config_missing e then Exited 1
  else
    match createClient supabaseUrl supabaseKey with
    | None => Crashed
    | Some supabase =>
        match createClient supabaseUrl supabaseServiceKey with
        | None => Crashed
        | Some supabaseAdmin =>
            if listen port then Listening port supabase supabaseAdmin
            else Crashed
        end
    end.

(** ** Definitions used to state the properties *)

(** The request context [authenticateToken] builds from the session row
    [s]: [req.user = session.users], [req.session = session]. *)
Definition resolved (d : Db) (s : Session) : Context :=
  mkContext (j_users (embed_user d s)) (embed_user d s).

(** The row [POST /api/login] inserts for [user]. *)
Definition issued_session (now : Z) (sessionToken : string) (req : Request)
    (user : User) : Session :=
  mkSession (u_id user) sessionToken (or_null (body_device_id req)) (ip req)
    (user_agent req) (now + session_lifetime_ms) true.


(** ** Sample data used by the examples *)

(** A store that answers every query. *)
Definition always_answers : Db -> StoreOp -> Outcome := fun _ _ => Answered.

(** A stand-in for the password verifier: the stored text is the password. *)
Definition same_text (password hash : string) : bool :=
  String.eqb password hash.

Definition alice : User :=
  mkUser "u-a" "a@x.com" (Some "correct") (Some "Alice") (Some "pro")
    [("created_at", JNum 1)].

Definition bob : User :=
  mkUser "u-b" "b@x.com" (Some "hunter2") None (Some "free") [].

(** Alice's session expired at time 1000 and is still flagged active. *)
Definition alice_session : Session :=
  mkSession "u-a" "tok-a" None (Some "10.0.0.1") (Some "curl") 1000 true.

Definition bob_session : Session :=
  mkSession "u-b" "tok-b" (Some "dev-1") None None 900000 true.

Definition sample_services : list Service :=
  [ mkService "u-a" true 10 [("name", JStr "mail")];
    mkService "u-b" true 20 [("name", JStr "video")];
    mkService "u-a" true 30 [("name", JStr "music")];
    mkService "u-a" false 40 [("name", JStr "old")] ].

Definition sample_db : Db :=
  mkDb [alice; bob] [alice_session; bob_session] sample_services.

Definition start (d : Db) : World := mkWorld d [].

(** A request that carries only an [Authorization] header. *)
Definition with_header (h : option string) : Request :=
  mkRequest h None None None None None.

(** A login request. *)
Definition credentials (email : option string) (password : option json)
  : Request :=
  mkRequest None email password (Some "dev-9") (Some "10.0.0.7") (Some "curl").

Definition sample_env (service_key : option string) : ProcessEnv :=
  mkEnv (Some "https://db.example") (Some "anon-key") service_key None.

(** ** [GET /api/version]

    The route sends one query to the table [extension_versions] and reads
    nothing else; it is embedded as a function of that table and of what
    the store client does with the query. *)

Record Version : Type := mkVersion {
  v_is_latest : bool;
  v_columns : list (string * json)   (* the remaining columns of the row *)
}.

Definition version_json (v : Version) : json :=
  JObj (("is_latest", JBool (v_is_latest v)) :: v_columns v).

Definition version_not_fetched : Response :=
  error_response 500 "Erro ao buscar versão".

Definition version_success (version : option Version) : Response :=
  mkResponse 200
    (JObj [("success", JBool true);
           ("version", match version with
                       | Some v => version_json v
                       | None => JNull
                       end)]).

(** [from('extension_versions').select().eq('is_latest', true).single()] *)
Definition latestVersion (outcome : Outcome) (extension_versions : list Version)
  : Completion (Reply Version) :=
  match outcome with
  | Threw => Thrown
  | Errored => Normal (mkReply None true)
  | Answered => Normal (single (filter v_is_latest extension_versions))
  end.

Definition get_api_version (outcome : Outcome)
    (extension_versions : list Version) : Response :=
  match latestVersion outcome extension_versions with      (* try *)
  | Normal r =>
      if error r then version_not_fetched
      else version_success (data r)
  | Thrown => internal_error                               (* catch *)
  end.

(** The order of a listing: [a] may come before [b] when [a] was created
    no earlier than [b]. *)
Definition newest_first (a b : Service) : Prop :=
  sv_created_at b <= sv_created_at a.

(** ** Further sample data *)

(** Alice's session with the active flag cleared. *)
Definition revoked_session : Session :=
  mkSession "u-a" "tok-a" None (Some "10.0.0.1") (Some "curl") 1000 false.

Definition revoked_db : Db :=
  mkDb [alice; bob] [revoked_session; bob_session] sample_services.

(** Two active sessions carry the same token. *)
Definition shared_token_db : Db :=
  mkDb [alice; bob]
    [alice_session; mkSession "u-b" "tok-a" None None None 5000 true]
    sample_services.

(** A session whose owner has no row in [users]. *)
Definition orphan_db : Db :=
  mkDb [bob] [alice_session; bob_session] sample_services.

(** Two user rows with one email. *)
Definition twin_db : Db :=
  mkDb [alice; mkUser "u-c" "a@x.com" (Some "correct") None None []] [] [].

(** A user row without a password hash. *)
Definition carol : User :=
  mkUser "u-c" "c@x.com" None (Some "Carol") None [].

Definition hashless_db : Db := mkDb [alice; carol] [] [].

(** A store whose queries all resolve with an error. *)
Definition always_errors : Db -> StoreOp -> Outcome := fun _ _ => Errored.

Definition sample_versions : list Version :=
  [ mkVersion false [("version", JStr "1.0.0")];
    mkVersion true [("version", JStr "1.1.0")] ].

(** * Properties *)

(** ** Splitting a header *)

Lemma split_nonempty (sep : ascii) (s : string) : split sep s <> [].
Proof.
  destruct s as [|c rest]; simpl; [discriminate|].
  destruct (Ascii.eqb c sep); [discriminate|].
  destruct (split sep rest); discriminate.
Qed.

Lemma split_no_space (s : string) :
  no_space s = true -> split space s = [s].
Proof.
  induction s as [|c rest IH]; simpl; intros H; [reflexivity|].
  apply andb_true_iff in H as [Hc Hrest].
  apply negb_true_iff in Hc. rewrite Hc, (IH Hrest). reflexivity.
Qed.

Lemma split_word_then_space (w rest : string) :
  no_space w = true ->
  split space (w ++ String space rest) = w :: split space rest.
Proof.
  induction w as [|c w IH]; simpl; intros H.
  - reflexivity.
  - apply andb_true_iff in H as [Hc Hw]. apply negb_true_iff in Hc.
    rewrite Hc, (IH Hw). reflexivity.
Qed.

Lemma second_part_of_two_words (scheme tok : string) :
  no_space scheme = true -> no_space tok = true ->
  nth_error (split space (scheme ++ " " ++ tok)) 1 = Some tok.
Proof.
  intros Hs Ht.
  change (" " ++ tok)%string with (String space tok).
  rewrite (split_word_then_space _ _ Hs), (split_no_space _ Ht).
  reflexivity.
Qed.

Lemma header_token_single_word (h : string) :
  no_space h = true -> falsy (header_token (Some h)) = true.
Proof.
  intros H. destruct h as [|c rest]; [reflexivity|].
  unfold header_token. rewrite (split_no_space _ H). reflexivity.
Qed.

Lemma header_token_second_part (h tok : string) :
  nth_error (split space h) 1 = Some tok ->
  header_token (Some h) = Some tok.
Proof.
  destruct h as [|c rest]; [discriminate|]. intros H; exact H.
Qed.

Lemma falsy_cases (x : option string) :
  falsy x = true -> x = None \/ x = Some "".
Proof.
  destruct x as [[|c s]|]; simpl; intros H;
    [right; reflexivity | discriminate | left; reflexivity].
Qed.

Lemma truthy_cases (x : option string) :
  falsy x = false -> exists c s, x = Some (String c s).
Proof.
  destruct x as [[|c s]|]; simpl; intros H; try discriminate.
  exists c, s; reflexivity.
Qed.

(** ** Sorting keeps the rows *)

Lemma In_insert_desc (x r : Service) (l : list Service) :
  In r (insert_desc x l) -> r = x \/ In r l.
Proof.
  induction l as [|y t IH]; simpl.
  - intros [H|[]]; left; symmetry; exact H.
  - destruct (sv_created_at y <=? sv_created_at x); simpl.
    + intros [H|[H|H]]; [left; symmetry; exact H | right; left; exact H
                        | right; right; exact H].
    + intros [H|H]; [right; left; exact H|].
      destruct (IH H) as [E|I]; [left; exact E | right; right; exact I].
Qed.

Lemma In_order_created_at_desc (r : Service) (l : list Service) :
  In r (order_created_at_desc l) -> In r l.
Proof.
  induction l as [|x t IH]; simpl; [tauto|].
  intros H. apply In_insert_desc in H as [E|I];
    [left; symmetry; exact E | right; exact (IH I)].
Qed.

Lemma listed_rows_belong_to (uid : string) (d : Db) (r : Service) :
  In r (order_created_at_desc (filter (active_of_user uid) (user_services d))) ->
  sv_user_id r = uid /\ sv_is_active r = true /\ In r (user_services d).
Proof.
  intros H. apply In_order_created_at_desc in H.
  apply filter_In in H as [Hin Hp].
  unfold active_of_user in Hp. apply andb_true_iff in Hp as [He Ha].
  apply String.eqb_eq in He. auto.
Qed.

Section Properties.

Variable store_outcome : Db -> StoreOp -> Outcome.
Variable bcrypt_compare : string -> string -> bool.

(** ** What [authenticateToken] computes *)

Lemma authenticate_without_token (req : Request) (w : World) :
  falsy (header_token (authorization req)) = true ->
  authenticateToken store_outcome req w = (Normal (Respond token_required), w).
Proof.
  intros H. unfold authenticateToken.
  destruct (falsy_cases _ H) as [E|E]; rewrite E; reflexivity.
Qed.

Lemma authenticate_with_token (req : Request) (w : World) (c : ascii) (t : string) :
  header_token (authorization req) = Some (String c t) ->
  authenticateToken store_outcome req w =
  (Normal
     match store_outcome (db w) (SelectSessionByToken (String c t)) with
     | Answered =>
         match filter (active_with_token (String c t)) (user_sessions (db w)) with
         | [s] => Next (resolved (db w) s)
         | _ => Respond token_invalid_or_expired
         end
     | Errored => Respond token_invalid_or_expired
     | Threw => Respond token_invalid
     end,
   mkWorld (db w) (trace w ++ [SelectSessionByToken (String c t)])).
Proof.
  intros H. unfold authenticateToken. rewrite H.
  unfold try_catch, bind, findActiveSessionByToken, query, ret.
  destruct (store_outcome (db w) (SelectSessionByToken (String c t)));
    try reflexivity.
  destruct (filter (active_with_token (String c t)) (user_sessions (db w)))
    as [|s [|s' l]]; reflexivity.
Qed.

Lemma authenticate_accepts (req : Request) (w : World) (tok : string) (s : Session) :
  header_token (authorization req) = Some tok ->
  tok <> "" ->
  filter (active_with_token tok) (user_sessions (db w)) = [s] ->
  store_outcome (db w) (SelectSessionByToken tok) = Answered ->
  authenticateToken store_outcome req w =
  (Normal (Next (resolved (db w) s)),
   mkWorld (db w) (trace w ++ [SelectSessionByToken tok])).
Proof.
  intros Ht Hne Hs Ho. destruct tok as [|c t]; [contradiction|].
  rewrite (authenticate_with_token _ _ _ _ Ht), Ho, Hs. reflexivity.
Qed.

(** C9: an authentication check leaves the store as it was (users,
    sessions with their expiry, active flag and metadata, services), sends
    only a selection to the store, and when it calls [next()] the request
    context holds the session row found in the store and its owner. *)
Theorem authenticate_does_not_mutate (req : Request) (w : World) :
  db (snd (authenticateToken store_outcome req w)) = db w /\
  user_sessions (db (snd (authenticateToken store_outcome req w)))
    = user_sessions (db w) /\
  (forall op, In op (trace (snd (authenticateToken store_outcome req w))) ->
              In op (trace w) \/ exists tok, op = SelectSessionByToken tok) /\
  (forall ctx, fst (authenticateToken store_outcome req w) = Normal (Next ctx) ->
     exists s, In s (user_sessions (db w)) /\ s_is_active s = true /\
               header_token (authorization req) = Some (s_session_token s) /\
               ctx = resolved (db w) s).
Proof.
  destruct (falsy (header_token (authorization req))) eqn:F.
  - rewrite (authenticate_without_token _ _ F). simpl.
    repeat split; auto. intros ctx H; discriminate.
  - destruct (truthy_cases _ F) as (c & t & E).
    rewrite (authenticate_with_token _ _ _ _ E). simpl.
    repeat split; auto.
    + intros op H. apply in_app_or in H as [H|[H|[]]]; [left; exact H|].
      right; eexists; symmetry; exact H.
    + intros ctx H.
      destruct (store_outcome (db w) (SelectSessionByToken (String c t)));
        try discriminate.
      destruct (filter (active_with_token (String c t)) (user_sessions (db w)))
        as [|s [|s' l]] eqn:Fl; try discriminate.
      assert (I : In s (filter (active_with_token (String c t))
                          (user_sessions (db w)))) by (rewrite Fl; left; reflexivity).
      apply filter_In in I as [Iin Ip]. unfold active_with_token in Ip.
      apply andb_true_iff in Ip as [Ie Ia]. apply String.eqb_eq in Ie.
      exists s. repeat split; auto.
      * rewrite E, Ie. reflexivity.
      * injection H as H. symmetry; exact H.
Qed.

(** C10: the scheme word of the header is never looked at.  Whenever the
    second space-delimited part of the header is the token of the one
    active session that has it and the store answers, the request is
    authenticated, whatever the first word is (in particular for every header
    made of a scheme word, one space and the token); and a header of a
    single word with no space is answered as a missing credential, without
    any query. *)
Theorem scheme_word_is_ignored :
  (forall (h tok : string) (req : Request) (w : World) (s : Session),
      authorization req = Some h ->
      nth_error (split space h) 1 = Some tok ->
      tok <> "" ->
      filter (active_with_token tok) (user_sessions (db w)) = [s] ->
      store_outcome (db w) (SelectSessionByToken tok) = Answered ->
      fst (authenticateToken store_outcome req w)
        = Normal (Next (resolved (db w) s))) /\
  (forall scheme tok : string,
      no_space scheme = true -> no_space tok = true ->
      nth_error (split space (scheme ++ " " ++ tok)) 1 = Some tok) /\
  (forall (h : string) (req : Request) (w : World),
      authorization req = Some h ->
      no_space h = true ->
      authenticateToken store_outcome req w
        = (Normal (Respond token_required), w)).
Proof.
  split; [|split].
  - intros h tok req w s Hh Hn Hne Hs Ho.
    rewrite (authenticate_accepts req w tok s); auto.
    rewrite Hh. apply header_token_second_part; exact Hn.
  - exact second_part_of_two_words.
  - intros h req w Hh Hn. apply authenticate_without_token.
    rewrite Hh. apply header_token_single_word; exact Hn.
Qed.

(** ** What [POST /api/login] computes *)

Lemma login_without_fields (now : Z) (tok : string) (req : Request) (w : World) :
  falsy (body_email req) || falsy_value (body_password req) = true ->
  login store_outcome bcrypt_compare now tok req w = (Normal fields_required, w).
Proof.
  unfold login, try_catch, ret.
  destruct (body_email req) as [[|ce e]|];
    destruct (body_password req) as [p|]; try reflexivity.
  intros H. change (falsy_value (Some p) = true) in H. rewrite H. reflexivity.
Qed.

Lemma login_with_fields (now : Z) (tok : string) (req : Request) (w : World)
    (email : string) (password : json) :
  body_email req = Some email -> email <> "" ->
  body_password req = Some password -> falsy_value (Some password) = false ->
  login store_outcome bcrypt_compare now tok req w =
  let sel := SelectUserByEmail email in
  match store_outcome (db w) sel with
  | Threw => (Normal internal_error, mkWorld (db w) (trace w ++ [sel]))
  | Errored => (Normal invalid_credentials, mkWorld (db w) (trace w ++ [sel]))
  | Answered =>
      match filter (with_email email) (users (db w)) with
      | [user] =>
          match password, u_password_hash user with
          | JStr p, Some hash =>
              if bcrypt_compare p hash then
                let row := issued_session now tok req user in
                let tr := ((trace w ++ [sel]) ++ [InsertSession row])%list in
                match store_outcome (db w) (InsertSession row) with
                | Threw => (Normal internal_error, mkWorld (db w) tr)
                | Errored => (Normal session_not_created, mkWorld (db w) tr)
                | Answered =>
                    (Normal (login_success tok user),
                     mkWorld (add_session row (db w)) tr)
                end
              else
                (Normal invalid_credentials, mkWorld (db w) (trace w ++ [sel]))
          | _, _ =>                       (* bcrypt.compare rejects *)
              (Normal internal_error, mkWorld (db w) (trace w ++ [sel]))
          end
      | _ => (Normal invalid_credentials, mkWorld (db w) (trace w ++ [sel]))
      end
  end.
Proof.
  intros He Hne Hp Hnp.
  destruct email as [|ce e]; [contradiction|].
  unfold login. rewrite He, Hp, Hnp.
  unfold try_catch, bind, findUserByEmail, insertSession, query, ret,
    issued_session; simpl.
  destruct (store_outcome (db w) (SelectUserByEmail (String ce e)));
    try reflexivity.
  destruct (filter (with_email (String ce e)) (users (db w)))
    as [|user [|u' l]]; try reflexivity.
  simpl. unfold bcrypt_compare_await, ret, throw.
  destruct password as [| | |p| |]; try reflexivity.
  destruct (u_password_hash user) as [hash|]; try reflexivity.
  destruct (bcrypt_compare p hash); try reflexivity.
  simpl.
  match goal with
  | |- context [store_outcome (db w) (InsertSession ?r)] =>
      destruct (store_outcome (db w) (InsertSession r))
  end; reflexivity.
Qed.

(** Every outcome of a login other than the success response has a status
    different from 200. *)
Lemma login_success_inversion (now : Z) (tok : string) (req : Request)
    (w w' : World) (resp : Response) :
  login store_outcome bcrypt_compare now tok req w = (Normal resp, w') ->
  status resp = 200 ->
  exists email password user,
    body_email req = Some email /\ body_password req = Some (JStr password) /\
    filter (with_email email) (users (db w)) = [user] /\
    (exists hash, u_password_hash user = Some hash /\
                  bcrypt_compare password hash = true) /\
    resp = login_success tok user /\
    db w' = add_session (issued_session now tok req user) (db w).
Proof.
  intros H Hs.
  destruct (falsy (body_email req) || falsy_value (body_password req)) eqn:F.
  - rewrite (login_without_fields _ _ _ _ F) in H.
    injection H as <- _. discriminate.
  - apply orb_false_iff in F as [Fe Fp].
    destruct (truthy_cases _ Fe) as (ce & e & Ee).
    destruct (body_password req) as [pw|] eqn:Ep; [|discriminate].
    rewrite (login_with_fields now tok req w _ _ Ee ltac:(discriminate)
               Ep Fp) in H.
    cbv zeta in H.
    destruct (store_outcome (db w) (SelectUserByEmail (String ce e)));
      try (injection H as <- _; discriminate).
    destruct (filter (with_email (String ce e)) (users (db w)))
      as [|user [|u' l]] eqn:Fl; try (injection H as <- _; discriminate).
    destruct pw as [| | |p| |]; try (injection H as <- _; discriminate).
    destruct (u_password_hash user) as [hash|] eqn:Eh;
      try (injection H as <- _; discriminate).
    destruct (bcrypt_compare p hash) eqn:C;
      try (injection H as <- _; discriminate).
    destruct (store_outcome (db w)
                (InsertSession (issued_session now tok req user)));
      try (injection H as <- _; discriminate).
    injection H as <- <-.
    exists (String ce e), p, user.
    split; [exact Ee|]. split; [reflexivity|]. split; [exact Fl|].
    split; [exists hash; split; [exact Eh|exact C]|].
    split; reflexivity.
Qed.

(** C8: a login request whose email or password is missing (absent, or a
    falsy value such as the empty string, which [!x] treats alike) is
    answered with status 400; the store is not queried and nothing is
    written: the world, that is the tables and the log of queries, is
    returned as it was. *)
Theorem login_requires_email_and_password
    (now : Z) (tok : string) (req : Request) (w : World) :
  falsy (body_email req) = true \/ falsy_value (body_password req) = true ->
  login store_outcome bcrypt_compare now tok req w
    = (Normal fields_required, w) /\
  status fields_required = 400.
Proof.
  intros H. split; [|reflexivity].
  apply login_without_fields. apply orb_true_iff. exact H.
Qed.


(** C6: the body of every successful login response is exactly the success
    flag, the raw session token and an object with the matched user's [id],
    [email], [full_name] and [subscription_type], in that order and with
    that user's values; [password_hash] is not a key of it, and the object
    is the same whatever the password hash and the remaining columns of the
    row are. *)
Theorem login_response_is_sanitized
    (now : Z) (tok : string) (req : Request) (w w' : World) (resp : Response) :
  login store_outcome bcrypt_compare now tok req w = (Normal resp, w') ->
  status resp = 200 ->
  exists user,
    In user (users (db w)) /\
    body_email req = Some (u_email user) /\
    body resp
      = JObj [("success", JBool true);
              ("token", JStr tok);
              ("user",
               JObj [("id", JStr (u_id user));
                     ("email", JStr (u_email user));
                     ("full_name",
                      match u_full_name user with
                      | Some name => JStr name
                      | None => JNull
                      end);
                     ("subscription_type",
                      match u_subscription_type user with
                      | Some tier => JStr tier
                      | None => JNull
                      end)])] /\
    body resp = JObj [("success", JBool true);
                      ("token", JStr tok);
                      ("user", user_projection user)] /\
    keys (user_projection user)
      = ["id"; "email"; "full_name"; "subscription_type"] /\
    ~ In "password_hash" (keys (body resp)) /\
    ~ In "password_hash" (keys (user_projection user)) /\
    (forall hash columns,
        user_projection
          (mkUser (u_id user) (u_email user) hash (u_full_name user)
             (u_subscription_type user) columns)
        = user_projection user).
Proof.
  intros H Hs.
  destruct (login_success_inversion _ _ _ _ _ _ H Hs)
    as (email & password & user & He & Hp & Hf & Hc & -> & Hdb).
  assert (I : In user (filter (with_email email) (users (db w))))
    by (rewrite Hf; left; reflexivity).
  apply filter_In in I as [Iin Ie]. apply String.eqb_eq in Ie.
  exists user. repeat split; auto.
  - rewrite He, Ie. reflexivity.
  - simpl. intros [E|[E|[E|[]]]]; discriminate.
  - simpl. intros [E|[E|[E|[E|[]]]]]; discriminate.
Qed.

(** C7: every successful login appends one session row whose expiry is the
    issuance time plus seven days (604800000 ms); the request has no part
    in it: the expiry is the same for every request made at that time. *)
Theorem session_expires_after_seven_days
    (now : Z) (tok : string) (req : Request) (w w' : World) (resp : Response) :
  login store_outcome bcrypt_compare now tok req w = (Normal resp, w') ->
  status resp = 200 ->
  exists row,
    user_sessions (db w') = (user_sessions (db w) ++ [row])%list /\
    s_session_token row = tok /\
    s_is_active row = true /\
    s_expires_at row = now + 604800000 /\
    604800000 = 7 * (24 * 60 * 60 * 1000) /\
    (forall req' user', s_expires_at (issued_session now tok req' user')
                        = s_expires_at row).
Proof.
  intros H Hs.
  destruct (login_success_inversion _ _ _ _ _ _ H Hs)
    as (email & password & user & He & Hp & Hf & Hc & -> & Hdb).
  exists (issued_session now tok req user). rewrite Hdb.
  repeat split; reflexivity.
Qed.

(** ** What [GET /api/services] computes *)

Lemma services_handler_spec (ctx : Context) (w : World) :
  services_handler store_outcome ctx w =
  match req_user ctx with
  | None => (Normal internal_error, w)
  | Some user =>
      (Normal
         match store_outcome (db w) (SelectServicesOfUser (u_id user)) with
         | Threw => internal_error
         | Errored => services_not_fetched
         | Answered =>
             services_success
               (order_created_at_desc
                  (filter (active_of_user (u_id user)) (user_services (db w))))
         end,
       mkWorld (db w) (trace w ++ [SelectServicesOfUser (u_id user)]))
  end.
Proof.
  unfold services_handler, try_catch, bind, listUserServices, query, ret, throw.
  destruct (req_user ctx) as [user|]; [|reflexivity].
  destruct (store_outcome (db w) (SelectServicesOfUser (u_id user)));
    reflexivity.
Qed.

Lemma get_api_services_rejected (req : Request) (w w' : World) (r : Response) :
  authenticateToken store_outcome req w = (Normal (Respond r), w') ->
  get_api_services store_outcome req w = (Normal r, w').
Proof.
  intros H. unfold get_api_services, bind. rewrite H. reflexivity.
Qed.

Lemma get_api_services_passed (req : Request) (w w' : World) (ctx : Context) :
  authenticateToken store_outcome req w = (Normal (Next ctx), w') ->
  get_api_services store_outcome req w = services_handler store_outcome ctx w'.
Proof.
  intros H. unfold get_api_services, bind. rewrite H. reflexivity.
Qed.

(** With valid credentials and a store that answers, the login succeeds. *)
Lemma login_succeeds (now : Z) (tok : string) (req : Request) (w : World)
    (email password hash : string) (user : User) :
  body_email req = Some email -> email <> "" ->
  body_password req = Some (JStr password) -> password <> "" ->
  filter (with_email email) (users (db w)) = [user] ->
  u_password_hash user = Some hash ->
  bcrypt_compare password hash = true ->
  store_outcome (db w) (SelectUserByEmail email) = Answered ->
  store_outcome (db w) (InsertSession (issued_session now tok req user))
    = Answered ->
  fst (login store_outcome bcrypt_compare now tok req w)
    = Normal (login_success tok user).
Proof.
  intros He Hne Hp Hnp Hf Hh Hc Ho1 Ho2.
  assert (Hv : falsy_value (Some (JStr password)) = false)
    by (destruct password; [contradiction|reflexivity]).
  rewrite (login_with_fields now tok req w email _ He Hne Hp Hv).
  cbv zeta. rewrite Ho1, Hf, Hh, Hc, Ho2. reflexivity.
Qed.

(** C5: a request authenticated as [A] (its token is that of the one
    active session with it, and [A] is the owner embedded in that session)
    is answered either with an error response or with the listing [rows];
    every listed row is a stored row whose user id is [A]'s, so no row of a
    user [B] with another id is listed; and when the store answers both
    queries the answer is the listing. *)
Theorem services_listing_is_scoped_to_owner
    (req : Request) (w : World) (tok : string) (s : Session) (A : User) :
  header_token (authorization req) = Some tok ->
  tok <> "" ->
  filter (active_with_token tok) (user_sessions (db w)) = [s] ->
  find (fun u => String.eqb (u_id u) (s_user_id s)) (users (db w)) = Some A ->
  let rows :=
    order_created_at_desc
      (filter (active_of_user (u_id A)) (user_services (db w))) in
  let answer := fst (get_api_services store_outcome req w) in
  (forall r, In r rows -> sv_user_id r = u_id A /\ In r (user_services (db w))) /\
  (forall B : User, u_id B <> u_id A ->
     forall r, In r rows -> sv_user_id r <> u_id B) /\
  (answer = Normal (services_success rows) \/
   exists code msg, answer = Normal (error_response code msg) /\ code <> 200) /\
  (store_outcome (db w) (SelectSessionByToken tok) = Answered ->
   store_outcome (db w) (SelectServicesOfUser (u_id A)) = Answered ->
   answer = Normal (services_success rows)).
Proof.
  intros Ht Hne Hs HA rows answer.
  assert (Hrows : forall r, In r rows ->
            sv_user_id r = u_id A /\ In r (user_services (db w))).
  { intros r Hr. apply listed_rows_belong_to in Hr as (H1 & _ & H3). auto. }
  assert (Hcases :
    answer =
    Normal match store_outcome (db w) (SelectSessionByToken tok) with
           | Answered =>
               match store_outcome (db w) (SelectServicesOfUser (u_id A)) with
               | Threw => internal_error
               | Errored => services_not_fetched
               | Answered => services_success rows
               end
           | Errored => token_invalid_or_expired
           | Threw => token_invalid
           end).
  { subst answer. destruct tok as [|c t]; [contradiction|].
    pose proof (authenticate_with_token req w c t Ht) as Ha.
    destruct (store_outcome (db w) (SelectSessionByToken (String c t))).
    - rewrite Hs in Ha. rewrite (get_api_services_passed _ _ _ _ Ha).
      rewrite services_handler_spec. unfold resolved, embed_user. simpl.
      rewrite HA. simpl. reflexivity.
    - rewrite (get_api_services_rejected _ _ _ _ Ha). reflexivity.
    - rewrite (get_api_services_rejected _ _ _ _ Ha). reflexivity. }
  split; [exact Hrows|]. split; [|split].
  - intros B HB r Hr E. apply HB. rewrite <- E. apply Hrows. exact Hr.
  - rewrite Hcases.
    destruct (store_outcome (db w) (SelectSessionByToken tok));
      [destruct (store_outcome (db w) (SelectServicesOfUser (u_id A)))|..];
      first [ left; reflexivity
            | right; do 2 eexists; split; [reflexivity|discriminate] ].
  - intros H1 H2. rewrite Hcases, H1, H2. reflexivity.
Qed.


End Properties.

(** ** Start-up *)

Lemma createClient_requires_url_and_key (url key : option string) :
  falsy url = true \/ falsy key = true -> createClient url key = None.
Proof.
  unfold createClient. intros [H|H]; rewrite H; [reflexivity|].
  destruct (falsy url); reflexivity.
Qed.

Lemma startup_guard_ignores_service_key (e : ProcessEnv) (k : option string) :
  config_missing
    (mkEnv (SUPABASE_URL e) (SUPABASE_ANON_KEY e) k (PORT e))
  = config_missing e.
Proof. reflexivity. Qed.

Section Startup.

(** Whether [app.listen] succeeds on a port is left arbitrary. *)
Variable listen : string -> bool.

Lemma startup_exits_without_url_or_public_key
    (client : option string -> option string -> option Client)
    (e : ProcessEnv) :
  falsy (SUPABASE_URL e) = true \/ falsy (SUPABASE_ANON_KEY e) = true ->
  startup client listen e = Exited 1.
Proof.
  intros H. unfold startup, config_missing.
  apply orb_true_iff in H. rewrite H. reflexivity.
Qed.

(** C3: when the store URL, the public key or the service key is absent
    (or empty), the process does not get to listen: without the URL or the
    public key the guard of line 18 exits with code 1; with both set and
    the service key absent the guard is passed and the constructor of the
    privileged client, called with an absent key on line 24, throws, which
    ends the process before [app.listen]. *)
Theorem startup_refuses_without_configuration (e : ProcessEnv) :
  falsy (SUPABASE_URL e) = true \/
  falsy (SUPABASE_ANON_KEY e) = true \/
  falsy (SUPABASE_SERVICE_ROLE_KEY e) = true ->
  (startup createClient listen e = Exited 1 \/
   startup createClient listen e = Crashed) /\
  (forall port c1 c2, startup createClient listen e <> Listening port c1 c2) /\
  (falsy (SUPABASE_URL e) = true \/ falsy (SUPABASE_ANON_KEY e) = true ->
   startup createClient listen e = Exited 1) /\
  (falsy (SUPABASE_URL e) = false -> falsy (SUPABASE_ANON_KEY e) = false ->
   falsy (SUPABASE_SERVICE_ROLE_KEY e) = true ->
   startup createClient listen e = Crashed).
Proof.
  intros H.
  assert (Hguard : falsy (SUPABASE_URL e) = true \/
                   falsy (SUPABASE_ANON_KEY e) = true ->
                   startup createClient listen e = Exited 1)
    by apply startup_exits_without_url_or_public_key.
  assert (Hkey : falsy (SUPABASE_URL e) = false ->
                 falsy (SUPABASE_ANON_KEY e) = false ->
                 falsy (SUPABASE_SERVICE_ROLE_KEY e) = true ->
                 startup createClient listen e = Crashed).
  { intros Hu Ha Hk. unfold startup, config_missing. rewrite Hu, Ha. simpl.
    unfold createClient. rewrite Hu, Ha, Hk. reflexivity. }
  assert (Hcases : startup createClient listen e = Exited 1 \/
                   startup createClient listen e = Crashed).
  { destruct (falsy (SUPABASE_URL e)) eqn:Hu; [left; apply Hguard; auto|].
    destruct (falsy (SUPABASE_ANON_KEY e)) eqn:Ha; [left; apply Hguard; auto|].
    destruct H as [H|[H|H]]; try discriminate.
    right. apply Hkey; auto. }
  split; [exact Hcases|]. split; [|split; [exact Hguard|exact Hkey]].
  intros port c1 c2. destruct Hcases as [->| ->]; discriminate.
Qed.

End Startup.

Lemma startup_refuses_without_configuration_witness :
  falsy (SUPABASE_SERVICE_ROLE_KEY (sample_env None)) = true /\
  startup createClient (fun _ => true) (sample_env None) = Crashed /\
  falsy (SUPABASE_URL (mkEnv None (Some "anon-key") (Some "service-key") None))
    = true /\
  startup createClient (fun _ => true)
    (mkEnv None (Some "anon-key") (Some "service-key") None)
    = Exited 1.
Proof.
  split; [reflexivity|]. split; [|split; [reflexivity|]].
  - destruct (startup_refuses_without_configuration (fun _ => true)
                (sample_env None) (or_intror (or_intror eq_refl)))
      as (_ & _ & _ & H).
    apply H; reflexivity.
  - destruct (startup_refuses_without_configuration (fun _ => true)
                (mkEnv None (Some "anon-key") (Some "service-key") None)
                (or_introl eq_refl))
      as (_ & _ & H & _).
    apply H. left; reflexivity.
Defined.

(** ** The authenticator on concrete requests *)

(** C1, on a concrete store: Alice's session expired at time 1000 and is
    flagged active; at time 2000 a request bearing its token passes the
    authenticator, which calls [next()] with Alice's context, and the
    protected route answers 200 with her services. *)
Theorem expired_active_session_is_authenticated :
  let now := 2000 in
  let req := with_header (Some "Bearer tok-a") in
  s_expires_at alice_session < now /\
  s_is_active alice_session = true /\
  authenticateToken always_answers req (start sample_db)
    = (Normal (Next (mkContext (Some alice) (mkJoined alice_session (Some alice)))),
       mkWorld sample_db [SelectSessionByToken "tok-a"]) /\
  fst (get_api_services always_answers req (start sample_db))
    = Normal (services_success
                [ mkService "u-a" true 30 [("name", JStr "music")];
                  mkService "u-a" true 10 [("name", JStr "mail")] ]).
Proof.
  cbv zeta. split; [reflexivity|]. split; [reflexivity|].
  split; reflexivity.
Qed.



Lemma authenticate_does_not_mutate_witness :
  db (snd (authenticateToken always_answers
             (with_header (Some "Bearer tok-b")) (start sample_db)))
    = sample_db /\
  exists s, In s (user_sessions sample_db) /\
            fst (authenticateToken always_answers
                   (with_header (Some "Bearer tok-b")) (start sample_db))
              = Normal (Next (resolved sample_db s)).
Proof.
  pose proof (authenticate_does_not_mutate always_answers
                (with_header (Some "Bearer tok-b")) (start sample_db))
    as (Hdb & _ & _ & Hctx).
  split; [exact Hdb|].
  destruct (Hctx (resolved sample_db bob_session) eq_refl)
    as (s & Hin & _ & _ & Hs).
  exists s. split; [exact Hin|].
  exact (f_equal (fun c => Normal (Next c)) Hs).
Defined.

Lemma scheme_word_is_ignored_witness :
  fst (authenticateToken always_answers
         (with_header (Some "Basic tok-b")) (start sample_db))
    = Normal (Next (resolved sample_db bob_session)) /\
  nth_error (split space ("Token" ++ " " ++ "tok-b")) 1 = Some "tok-b" /\
  authenticateToken always_answers (with_header (Some "tok-b")) (start sample_db)
    = (Normal (Respond token_required), start sample_db).
Proof.
  destruct (scheme_word_is_ignored always_answers) as (H1 & H2 & H3).
  split; [|split].
  - apply (H1 "Basic tok-b" "tok-b" (with_header (Some "Basic tok-b"))
             (start sample_db) bob_session);
      [reflexivity | reflexivity | discriminate | reflexivity | reflexivity].
  - apply (H2 "Token" "tok-b"); reflexivity.
  - apply (H3 "tok-b" (with_header (Some "tok-b")) (start sample_db));
      reflexivity.
Defined.

(** ** The login handler on concrete requests *)

Lemma login_requires_email_and_password_witness :
  falsy_value (body_password (credentials (Some "a@x.com") None)) = true /\
  login always_answers same_text 5000 "tok-new"
    (credentials (Some "a@x.com") None) (start sample_db)
  = (Normal fields_required, start sample_db).
Proof.
  split; [reflexivity|].
  apply (login_requires_email_and_password always_answers same_text 5000
           "tok-new" (credentials (Some "a@x.com") None) (start sample_db)).
  right; reflexivity.
Defined.

(** C4, on concrete requests: with the number 123 as password, the email
    of a stored user is answered with the 500 of the catch block
    ([bcrypt.compare] rejects a password that is not a string), while an
    email no user has is answered with the 401 of invalid credentials; and
    for a user row without a hash, any password gives the 500. *)
Theorem non_string_password_reveals_existing_email :
  login always_answers same_text 5000 "tok-new"
    (credentials (Some "a@x.com") (Some (JNum 123))) (start sample_db)
  = (Normal internal_error, mkWorld sample_db [SelectUserByEmail "a@x.com"]) /\
  login always_answers same_text 5000 "tok-new"
    (credentials (Some "nobody@x.com") (Some (JNum 123))) (start sample_db)
  = (Normal invalid_credentials,
     mkWorld sample_db [SelectUserByEmail "nobody@x.com"]) /\
  login always_answers same_text 5000 "tok-new"
    (credentials (Some "c@x.com") (Some (JStr "any"))) (start hashless_db)
  = (Normal internal_error, mkWorld hashless_db [SelectUserByEmail "c@x.com"]) /\
  status internal_error = 500 /\
  status invalid_credentials = 401.
Proof. repeat split; reflexivity. Qed.


(** Alice logs in at time 5000. *)
Lemma alice_logs_in :
  login always_answers same_text 5000 "tok-new"
    (credentials (Some "a@x.com") (Some (JStr "correct"))) (start sample_db)
  = (Normal (login_success "tok-new" alice),
     mkWorld
       (add_session
          (mkSession "u-a" "tok-new" (Some "dev-9") (Some "10.0.0.7")
             (Some "curl") 604805000 true)
          sample_db)
       [SelectUserByEmail "a@x.com";
        InsertSession
          (mkSession "u-a" "tok-new" (Some "dev-9") (Some "10.0.0.7")
             (Some "curl") 604805000 true)]).
Proof. reflexivity. Qed.

Lemma login_response_is_sanitized_witness :
  body (login_success "tok-new" alice)
  = JObj [("success", JBool true); ("token", JStr "tok-new");
          ("user",
           JObj [("id", JStr "u-a"); ("email", JStr "a@x.com");
                 ("full_name", JStr "Alice");
                 ("subscription_type", JStr "pro")])] /\
  exists user,
    In user (users sample_db) /\
    body (login_success "tok-new" alice)
      = JObj [("success", JBool true); ("token", JStr "tok-new");
              ("user", user_projection user)] /\
    ~ In "password_hash" (keys (user_projection user)).
Proof.
  split; [reflexivity|].
  destruct (login_response_is_sanitized always_answers same_text 5000
              "tok-new" (credentials (Some "a@x.com") (Some (JStr "correct")))
              (start sample_db) _ _ alice_logs_in eq_refl)
    as (user & Hin & _ & _ & Hbody & _ & _ & Hkey & _).
  exists user. split; [exact Hin|]. split; [exact Hbody|exact Hkey].
Defined.

Lemma session_expires_after_seven_days_witness :
  exists row,
    user_sessions
      (add_session
         (mkSession "u-a" "tok-new" (Some "dev-9") (Some "10.0.0.7")
            (Some "curl") 604805000 true)
         sample_db)
    = (user_sessions sample_db ++ [row])%list /\
    s_expires_at row = 5000 + 604800000.
Proof.
  destruct (session_expires_after_seven_days always_answers same_text 5000
              "tok-new" (credentials (Some "a@x.com") (Some (JStr "correct")))
              (start sample_db) _ _ alice_logs_in eq_refl)
    as (row & Hrows & _ & _ & Hexp & _).
  exists row. split; [exact Hrows|exact Hexp].
Defined.

(** ** The listing on a concrete request *)

Lemma services_listing_is_scoped_to_owner_witness :
  header_token (authorization (with_header (Some "Bearer tok-a"))) = Some "tok-a" /\
  filter (active_with_token "tok-a") (user_sessions sample_db) = [alice_session] /\
  u_id bob <> u_id alice /\
  fst (get_api_services always_answers (with_header (Some "Bearer tok-a"))
         (start sample_db))
  = Normal (services_success
              (order_created_at_desc
                 (filter (active_of_user "u-a") (user_services sample_db)))) /\
  (forall r,
      In r (order_created_at_desc
              (filter (active_of_user "u-a") (user_services sample_db))) ->
      sv_user_id r <> u_id bob).
Proof.
  pose proof (services_listing_is_scoped_to_owner always_answers
                (with_header (Some "Bearer tok-a")) (start sample_db)
                "tok-a" alice_session alice
                eq_refl ltac:(discriminate) eq_refl eq_refl)
    as (_ & Hother & _ & Hok).
  split; [reflexivity|]. split; [reflexivity|].
  split; [discriminate|]. split.
  - exact (Hok eq_refl eq_refl).
  - exact (Hother bob ltac:(discriminate)).
Defined.

(** * Further properties of the handlers *)

Lemma filter_none {A : Type} (f : A -> bool) (l : list A) :
  (forall x, In x l -> f x = false) -> filter f l = [].
Proof.
  induction l as [|a l IH]; simpl; intros H; [reflexivity|].
  rewrite (H a (or_introl eq_refl)). apply IH.
  intros x Hx. apply H. right; exact Hx.
Qed.

Lemma header_token_empty_second_part (h : string) :
  nth_error (split space h) 1 = Some "" ->
  falsy (header_token (Some h)) = true.
Proof.
  destruct h as [|c rest]; [reflexivity|].
  unfold header_token. intros ->. reflexivity.
Qed.

Lemma find_by_id_sound (x : string) (l : list User) (u : User) :
  find (fun v => String.eqb (u_id v) x) l = Some u -> In u l /\ u_id u = x.
Proof.
  intros H. apply find_some in H as [Hin He].
  apply String.eqb_eq in He. auto.
Qed.

Lemma find_by_id_complete (x : string) (l : list User) (u : User) :
  In u l -> u_id u = x ->
  exists v, find (fun v => String.eqb (u_id v) x) l = Some v.
Proof.
  intros Hin He.
  destruct (find (fun v => String.eqb (u_id v) x) l) as [v|] eqn:F.
  - exists v; reflexivity.
  - pose proof (find_none _ _ F u Hin) as N. simpl in N.
    apply String.eqb_neq in N. contradiction.
Qed.

Section AuthenticatorProperties.

Variable store_outcome : Db -> StoreOp -> Outcome.

(** The middleware reads the request through its token only. *)
Lemma authenticate_depends_on_token (req1 req2 : Request) (w : World) :
  header_token (authorization req1) = header_token (authorization req2) ->
  authenticateToken store_outcome req1 w = authenticateToken store_outcome req2 w.
Proof.
  intros H. unfold authenticateToken. rewrite H. reflexivity.
Qed.

(** X1: the middleware never lets an exception escape, and when it answers
    itself the status is 401 exactly when the header yields no token (then
    the store is not queried) and 403 otherwise, whatever the store does. *)
Theorem authenticate_answers_401_or_403 (req : Request) (w : World) :
  exists out w',
    authenticateToken store_outcome req w = (Normal out, w') /\
    match out with
    | Next _ => falsy (header_token (authorization req)) = false
    | Respond r =>
        (falsy (header_token (authorization req)) = true /\
         status r = 401 /\ w' = w) \/
        (falsy (header_token (authorization req)) = false /\ status r = 403)
    end.
Proof.
  destruct (falsy (header_token (authorization req))) eqn:F.
  - rewrite (authenticate_without_token _ _ _ F).
    do 2 eexists. split; [reflexivity|]. left. auto.
  - destruct (truthy_cases _ F) as (c & t & E).
    rewrite (authenticate_with_token _ _ _ _ _ E).
    do 2 eexists. split; [reflexivity|].
    destruct (store_outcome (db w) (SelectSessionByToken (String c t)));
      [|right; auto..].
    destruct (filter (active_with_token (String c t)) (user_sessions (db w)))
      as [|s [|s' l]]; [right; auto | reflexivity | right; auto].
Qed.

(** X2: a token none of whose sessions is flagged active is rejected with
    status 403, whatever the expiry of those sessions and whatever the
    store client does. *)
Theorem inactive_session_is_rejected (req : Request) (w : World) (tok : string) :
  header_token (authorization req) = Some tok ->
  tok <> "" ->
  (forall s, In s (user_sessions (db w)) ->
             s_session_token s = tok -> s_is_active s = false) ->
  exists r,
    fst (authenticateToken store_outcome req w) = Normal (Respond r) /\
    status r = 403.
Proof.
  intros Ht Hne Hin. destruct tok as [|c t]; [contradiction|].
  rewrite (authenticate_with_token _ _ _ _ _ Ht).
  rewrite (filter_none (active_with_token (String c t))).
  - simpl.
    destruct (store_outcome (db w) (SelectSessionByToken (String c t)));
      eexists; split; reflexivity.
  - intros s Hs. unfold active_with_token.
    destruct (String.eqb (s_session_token s) (String c t)) eqn:E;
      [|reflexivity].
    apply String.eqb_eq in E. rewrite (Hin s Hs E). reflexivity.
Qed.

(** X3: [next()] is called exactly when the header yields a non-empty
    token, the store answers the lookup, and exactly one active session
    has that token; a token shared by several active sessions is not
    accepted. *)
Theorem authenticate_accepts_iff (req : Request) (w : World) (ctx : Context) :
  fst (authenticateToken store_outcome req w) = Normal (Next ctx) <->
  exists tok s,
    header_token (authorization req) = Some tok /\ tok <> "" /\
    store_outcome (db w) (SelectSessionByToken tok) = Answered /\
    filter (active_with_token tok) (user_sessions (db w)) = [s] /\
    ctx = resolved (db w) s.
Proof.
  split.
  - intros H.
    destruct (falsy (header_token (authorization req))) eqn:F.
    + rewrite (authenticate_without_token _ _ _ F) in H. discriminate.
    + destruct (truthy_cases _ F) as (c & t & E).
      rewrite (authenticate_with_token _ _ _ _ _ E) in H. simpl in H.
      destruct (store_outcome (db w) (SelectSessionByToken (String c t)))
        eqn:O; try discriminate.
      destruct (filter (active_with_token (String c t)) (user_sessions (db w)))
        as [|s [|s' l]] eqn:Fl; try discriminate.
      injection H as H.
      exists (String c t), s. repeat split; auto. discriminate.
  - intros (tok & s & Ht & Hne & Ho & Hf & ->).
    rewrite (authenticate_accepts _ _ _ _ _ Ht Hne Hf Ho). reflexivity.
Qed.

(** X4: only the second space-delimited part of the header is read: what
    follows a second space is ignored, so a header with further parts is
    treated exactly as the header made of the first two. *)
Theorem parts_after_the_token_are_ignored
    (scheme tok rest : string) (req1 req2 : Request) (w : World) :
  no_space scheme = true -> no_space tok = true ->
  authorization req1 = Some (scheme ++ " " ++ tok ++ " " ++ rest) ->
  authorization req2 = Some (scheme ++ " " ++ tok) ->
  authenticateToken store_outcome req1 w = authenticateToken store_outcome req2 w.
Proof.
  intros Hs Ht H1 H2. apply authenticate_depends_on_token.
  rewrite H1, H2.
  rewrite (header_token_second_part _ tok (second_part_of_two_words _ _ Hs Ht)).
  apply header_token_second_part.
  change (" " ++ tok ++ " " ++ rest)%string
    with (String space (tok ++ String space rest)).
  rewrite (split_word_then_space _ _ Hs), (split_word_then_space _ _ Ht).
  reflexivity.
Qed.

(** X5: a header whose first space ends it, or is followed at once by a
    second space, has an empty second part: it is answered as a missing
    credential (401) and the store is not queried, even if a valid token
    follows the second space. *)
Theorem empty_second_part_is_a_missing_credential
    (scheme rest : string) (req : Request) (w : World) :
  no_space scheme = true ->
  authorization req = Some (scheme ++ " ") \/
  authorization req = Some (scheme ++ "  " ++ rest) ->
  authenticateToken store_outcome req w = (Normal (Respond token_required), w).
Proof.
  intros Hs [H|H]; apply authenticate_without_token; rewrite H;
    apply header_token_empty_second_part.
  - change " " with (String space ""). 
    rewrite (split_word_then_space _ _ Hs). reflexivity.
  - change ("  " ++ rest)%string with (String space (String space rest)).
    rewrite (split_word_then_space _ _ Hs). reflexivity.
Qed.

End AuthenticatorProperties.

Section LoginProperties.

Variable store_outcome : Db -> StoreOp -> Outcome.
Variable bcrypt_compare : string -> string -> bool.

(** The possible runs of [login] on a request with both fields. *)
Lemma login_cases (now : Z) (tok : string) (req : Request) (w : World) :
  (falsy (body_email req) || falsy_value (body_password req) = true /\
   login store_outcome bcrypt_compare now tok req w
     = (Normal fields_required, w)) \/
  exists email password,
    body_email req = Some email /\ email <> "" /\
    body_password req = Some password /\
    falsy_value (Some password) = false /\
    falsy (body_email req) || falsy_value (body_password req) = false.
Proof.
  destruct (falsy (body_email req) || falsy_value (body_password req)) eqn:F.
  - left. split; [reflexivity|]. apply login_without_fields; exact F.
  - right. apply orb_false_iff in F as [Fe Fp].
    destruct (truthy_cases _ Fe) as (ce & e & Ee).
    destruct (body_password req) as [p|] eqn:Ep; [|discriminate].
    exists (String ce e), p.
    split; [exact Ee|]. split; [discriminate|]. split; [reflexivity|].
    split; [exact Fp|reflexivity].
Qed.

(** X6: a token returned by a successful login resolves at once to the
    user who logged in: if no active session had the token before, a
    request with the header [Bearer <token>] passes the authenticator on
    the resulting store, with the inserted row as [req.session] and a user
    of the same id as [req.user]. *)
Theorem login_then_authenticate
    (now : Z) (tok : string) (req areq : Request) (w w' : World)
    (resp : Response) :
  login store_outcome bcrypt_compare now tok req w = (Normal resp, w') ->
  status resp = 200 ->
  tok <> "" -> no_space tok = true ->
  (forall s, In s (user_sessions (db w)) ->
             s_session_token s = tok -> s_is_active s = false) ->
  authorization areq = Some ("Bearer " ++ tok) ->
  store_outcome (db w') (SelectSessionByToken tok) = Answered ->
  exists user u ctx,
    resp = login_success tok user /\
    fst (authenticateToken store_outcome areq w') = Normal (Next ctx) /\
    j_session (req_session ctx) = issued_session now tok req user /\
    req_user ctx = Some u /\ u_id u = u_id user /\ In u (users (db w)).
Proof.
  intros H Hs Hne Hsp Hfresh Hh Ho.
  destruct (login_success_inversion _ _ _ _ _ _ _ _ H Hs)
    as (email & password & user & He & Hp & Hf & Hc & -> & Hdb).
  assert (Iu : In user (users (db w))).
  { assert (I : In user (filter (with_email email) (users (db w))))
      by (rewrite Hf; left; reflexivity).
    apply filter_In in I as [I _]; exact I. }
  assert (Hrow : filter (active_with_token tok) (user_sessions (db w'))
                 = [issued_session now tok req user]).
  { rewrite Hdb. simpl. rewrite filter_app, (filter_none _ _).
    - simpl. unfold active_with_token. simpl.
      rewrite String.eqb_refl. reflexivity.
    - intros s Hin. unfold active_with_token.
      destruct (String.eqb (s_session_token s) tok) eqn:E; [|reflexivity].
      apply String.eqb_eq in E. rewrite (Hfresh s Hin E). reflexivity. }
  assert (Htok : header_token (authorization areq) = Some tok).
  { rewrite Hh. apply header_token_second_part.
    change ("Bearer " ++ tok)%string with ("Bearer" ++ " " ++ tok)%string.
    apply second_part_of_two_words; [reflexivity|exact Hsp]. }
  destruct (find_by_id_complete (u_id user) (users (db w')) user)
    as (u & Hu).
  { rewrite Hdb. exact Iu. }
  { reflexivity. }
  exists user, u, (resolved (db w') (issued_session now tok req user)).
  split; [reflexivity|]. split.
  - rewrite (authenticate_accepts _ _ _ _ _ Htok Hne Hrow Ho). reflexivity.
  - split; [reflexivity|]. split; [exact Hu|].
    apply find_by_id_sound in Hu as [Hin Hid]. split; [exact Hid|].
    rewrite Hdb in Hin. exact Hin.
Qed.

(** X7: a login never touches the users or the services, never changes or
    removes a stored session (earlier sessions of the same user stay as
    they are), and adds at most one row; it adds it exactly when it answers
    with the success response. *)
Theorem login_keeps_existing_rows
    (now : Z) (tok : string) (req : Request) (w : World) :
  users (db (snd (login store_outcome bcrypt_compare now tok req w)))
    = users (db w) /\
  user_services (db (snd (login store_outcome bcrypt_compare now tok req w)))
    = user_services (db w) /\
  ((db (snd (login store_outcome bcrypt_compare now tok req w)) = db w /\
    exists r, fst (login store_outcome bcrypt_compare now tok req w) = Normal r
              /\ status r <> 200) \/
   (exists user,
      user_sessions (db (snd (login store_outcome bcrypt_compare now tok req w)))
        = (user_sessions (db w) ++ [issued_session now tok req user])%list /\
      fst (login store_outcome bcrypt_compare now tok req w)
        = Normal (login_success tok user))).
Proof.
  destruct (login_cases now tok req w)
    as [[_ E]|(email & password & He & Hne & Hp & Hnp & _)].
  - rewrite E. simpl. repeat split.
    left. split; [reflexivity|]. eexists; split; [reflexivity|discriminate].
  - rewrite (login_with_fields _ _ now tok req w email password He Hne Hp Hnp).
    cbv zeta.
    destruct (store_outcome (db w) (SelectUserByEmail email));
      try (simpl; repeat split; left; split; [reflexivity|];
           eexists; split; [reflexivity|discriminate]).
    destruct (filter (with_email email) (users (db w))) as [|user [|u' l]];
      try (simpl; repeat split; left; split; [reflexivity|];
           eexists; split; [reflexivity|discriminate]).
    destruct password as [| | |p| |];
      try (simpl; repeat split; left; split; [reflexivity|];
           eexists; split; [reflexivity|discriminate]).
    destruct (u_password_hash user) as [hash|];
      try (simpl; repeat split; left; split; [reflexivity|];
           eexists; split; [reflexivity|discriminate]).
    destruct (bcrypt_compare p hash);
      try (simpl; repeat split; left; split; [reflexivity|];
           eexists; split; [reflexivity|discriminate]).
    destruct (store_outcome (db w)
                (InsertSession (issued_session now tok req user)));
      try (simpl; repeat split; left; split; [reflexivity|];
           eexists; split; [reflexivity|discriminate]).
    simpl. repeat split. right. exists user. split; reflexivity.
Qed.

(** X8: an insert is sent to the store only for a user whose password was
    verified: every [InsertSession] the login adds to the log of queries
    carries the row issued for the one user row with the request's email,
    and the submitted password, a string, matched that row's hash. *)
Theorem session_inserted_only_after_verification
    (now : Z) (tok : string) (req : Request) (w : World) (row : Session) :
  In (InsertSession row)
     (trace (snd (login store_outcome bcrypt_compare now tok req w))) ->
  ~ In (InsertSession row) (trace w) ->
  exists email password hash user,
    body_email req = Some email /\ body_password req = Some (JStr password) /\
    filter (with_email email) (users (db w)) = [user] /\
    u_password_hash user = Some hash /\
    bcrypt_compare password hash = true /\
    row = issued_session now tok req user.
Proof.
  intros Hin Hnot.
  destruct (login_cases now tok req w)
    as [[_ E]|(email & password & He & Hne & Hp & Hnp & _)].
  - rewrite E in Hin. contradiction.
  - rewrite (login_with_fields _ _ now tok req w email password He Hne Hp Hnp)
      in Hin.
    cbv zeta in Hin.
    assert (Hsel : forall l, In (InsertSession row)
                     (trace (mkWorld l (trace w ++ [SelectUserByEmail email])))
                   -> False).
    { intros l I. simpl in I. apply in_app_or in I as [I|[I|[]]];
        [contradiction|discriminate]. }
    destruct (store_outcome (db w) (SelectUserByEmail email));
      try (exfalso; exact (Hsel _ Hin)).
    destruct (filter (with_email email) (users (db w)))
      as [|user [|u' l]] eqn:Fl; try (exfalso; exact (Hsel _ Hin)).
    destruct password as [| | |p| |]; try (exfalso; exact (Hsel _ Hin)).
    destruct (u_password_hash user) as [hash|] eqn:Eh;
      try (exfalso; exact (Hsel _ Hin)).
    destruct (bcrypt_compare p hash) eqn:C;
      try (exfalso; exact (Hsel _ Hin)).
    assert (Hrow : row = issued_session now tok req user).
    { destruct (store_outcome (db w)
                  (InsertSession (issued_session now tok req user)));
        simpl in Hin;
        (apply in_app_or in Hin as [I|[I|[]]];
         [exfalso; exact (Hsel (db w) I) | injection I as I; symmetry; exact I]). }
    exists email, p, hash, user. repeat split; auto.
Qed.

(** X9: when the user lookup resolves with an error, or finds several rows
    with the submitted email, the login answers with the generic 401 even
    if the password matches a stored hash: a store error on the lookup is
    not reported as a server error, and nothing is inserted. *)
Theorem failed_or_ambiguous_lookup_is_401
    (now : Z) (tok : string) (req : Request) (w : World)
    (email : string) (password : json) :
  body_email req = Some email -> email <> "" ->
  body_password req = Some password -> falsy_value (Some password) = false ->
  store_outcome (db w) (SelectUserByEmail email) = Errored \/
  (store_outcome (db w) (SelectUserByEmail email) = Answered /\
   exists u1 u2 l, filter (with_email email) (users (db w)) = u1 :: u2 :: l) ->
  login store_outcome bcrypt_compare now tok req w
    = (Normal invalid_credentials,
       mkWorld (db w) (trace w ++ [SelectUserByEmail email])).
Proof.
  intros He Hne Hp Hnp H.
  rewrite (login_with_fields _ _ now tok req w email password He Hne Hp Hnp).
  cbv zeta. destruct H as [->|[-> (u1 & u2 & l & ->)]]; reflexivity.
Qed.

(** X10: the login handler always answers: no exception escapes it, the
    status is 200, 400, 401 or 500, it is 400 exactly when the email or the
    password is missing, and a lookup that throws gives the 500 of the
    catch block. *)
Theorem login_always_answers
    (now : Z) (tok : string) (req : Request) (w : World) :
  exists resp w',
    login store_outcome bcrypt_compare now tok req w = (Normal resp, w') /\
    In (status resp) [200; 400; 401; 500] /\
    (status resp = 400 <->
     falsy (body_email req) || falsy_value (body_password req) = true) /\
    (forall email,
        body_email req = Some email ->
        falsy (body_email req) || falsy_value (body_password req) = false ->
        store_outcome (db w) (SelectUserByEmail email) = Threw ->
        resp = internal_error).
Proof.
  destruct (login_cases now tok req w)
    as [[F E]|(email & password & He & Hne & Hp & Hnp & F)].
  - rewrite E. do 2 eexists. split; [reflexivity|]. rewrite F.
    split; [simpl; auto|]. split; [split; reflexivity|].
    intros; discriminate.
  - rewrite (login_with_fields _ _ now tok req w email password He Hne Hp Hnp).
    cbv zeta. rewrite F.
    destruct (store_outcome (db w) (SelectUserByEmail email)) eqn:O;
      [destruct (filter (with_email email) (users (db w))) as [|user [|u' l]];
       [|destruct password as [| | |p| |];
         [| | |destruct (u_password_hash user) as [hash|];
               [destruct (bcrypt_compare p hash);
                [destruct (store_outcome (db w)
                             (InsertSession (issued_session now tok req user)))
                |]|]| |]|]
      |..];
      do 2 eexists; (split; [reflexivity|]);
      (split; [simpl; auto 6|]);
      (split; [simpl; split; intros X; discriminate X|]);
      intros e' He' _ T; rewrite He in He'; injection He' as <-;
      first [reflexivity | rewrite O in T; discriminate T].
Qed.

End LoginProperties.
(** ** The ordered listing *)

Lemma insert_desc_perm (x : Service) (l : list Service) :
  Permutation (insert_desc x l) (x :: l).
Proof.
  induction l as [|y t IH]; simpl; [apply Permutation_refl|].
  destruct (sv_created_at y <=? sv_created_at x); [apply Permutation_refl|].
  apply perm_trans with (y :: x :: t); [|apply perm_swap].
  apply perm_skip. exact IH.
Qed.

Lemma order_created_at_desc_perm (l : list Service) :
  Permutation (order_created_at_desc l) l.
Proof.
  induction l as [|x t IH]; simpl; [apply perm_nil|].
  apply perm_trans with (x :: order_created_at_desc t);
    [apply insert_desc_perm | apply perm_skip; exact IH].
Qed.

Lemma insert_desc_sorted (x : Service) (l : list Service) :
  StronglySorted newest_first l -> StronglySorted newest_first (insert_desc x l).
Proof.
  induction l as [|y t IH]; simpl; intros H.
  - constructor; constructor.
  - inversion H as [|y' t' Ht Hy]; subst.
    destruct (sv_created_at y <=? sv_created_at x) eqn:E.
    + apply Z.leb_le in E. constructor; [exact H|].
      constructor; [exact E|].
      apply Forall_forall. intros z Hz.
      rewrite Forall_forall in Hy. specialize (Hy z Hz).
      unfold newest_first in *. apply Z.le_trans with (sv_created_at y); assumption.
    + apply Z.leb_gt in E. constructor; [apply IH; exact Ht|].
      apply Forall_forall. intros z Hz.
      apply In_insert_desc in Hz as [->|Hz].
      * unfold newest_first. apply Z.lt_le_incl. exact E.
      * rewrite Forall_forall in Hy. exact (Hy z Hz).
Qed.

Lemma order_created_at_desc_sorted (l : list Service) :
  StronglySorted newest_first (order_created_at_desc l).
Proof.
  induction l as [|x t IH]; simpl; [constructor|].
  apply insert_desc_sorted. exact IH.
Qed.

Section ServicesProperties.

Variable store_outcome : Db -> StoreOp -> Outcome.

(** X11: for a request authenticated as [A] and a store that answers, the
    listing holds every stored row of [A] that is flagged active, each as
    often as it is stored, and nothing else (inactive rows are left out),
    newest first; a user without active rows gets the success response with
    an empty list. *)
Theorem services_listing_is_complete_and_ordered
    (req : Request) (w : World) (tok : string) (s : Session) (A : User) :
  header_token (authorization req) = Some tok ->
  tok <> "" ->
  filter (active_with_token tok) (user_sessions (db w)) = [s] ->
  find (fun u => String.eqb (u_id u) (s_user_id s)) (users (db w)) = Some A ->
  store_outcome (db w) (SelectSessionByToken tok) = Answered ->
  store_outcome (db w) (SelectServicesOfUser (u_id A)) = Answered ->
  exists rows,
    fst (get_api_services store_outcome req w) = Normal (services_success rows) /\
    Permutation rows (filter (active_of_user (u_id A)) (user_services (db w))) /\
    StronglySorted newest_first rows /\
    (forall r, In r rows <->
               In r (user_services (db w)) /\ sv_user_id r = u_id A /\
               sv_is_active r = true) /\
    ((forall r, In r (user_services (db w)) -> sv_user_id r = u_id A ->
                sv_is_active r = false) -> rows = []).
Proof.
  intros Ht Hne Hs HA Ho1 Ho2.
  exists (order_created_at_desc
            (filter (active_of_user (u_id A)) (user_services (db w)))).
  split.
  - pose proof (authenticate_accepts store_outcome _ _ _ _ Ht Hne Hs Ho1) as Ha.
    rewrite (get_api_services_passed _ _ _ _ _ Ha), services_handler_spec.
    unfold resolved, embed_user. simpl. rewrite HA, Ho2. reflexivity.
  - split; [apply order_created_at_desc_perm|].
    split; [apply order_created_at_desc_sorted|]. split.
    + intros r. split.
      * intros Hr. apply listed_rows_belong_to in Hr as (H1 & H2 & H3). auto.
      * intros (H1 & H2 & H3).
        apply (Permutation_in _ (Permutation_sym (order_created_at_desc_perm _))).
        apply filter_In. split; [exact H1|].
        unfold active_of_user. rewrite H3, andb_true_r.
        apply String.eqb_eq. exact H2.
    + intros Hnone. rewrite (filter_none (active_of_user (u_id A))); [reflexivity|].
      intros r Hr. unfold active_of_user.
      destruct (String.eqb (sv_user_id r) (u_id A)) eqn:E; [|reflexivity].
      apply String.eqb_eq in E. rewrite (Hnone r Hr E). reflexivity.
Qed.

(** X12: when the session found has no owner row ([session.users] is
    [null]), reading [req.user.id] throws inside the handler: the route
    answers with the 500 of its catch block and no services query is
    sent. *)
Theorem session_without_owner_gets_500
    (req : Request) (w : World) (tok : string) (s : Session) :
  header_token (authorization req) = Some tok ->
  tok <> "" ->
  filter (active_with_token tok) (user_sessions (db w)) = [s] ->
  find (fun u => String.eqb (u_id u) (s_user_id s)) (users (db w)) = None ->
  store_outcome (db w) (SelectSessionByToken tok) = Answered ->
  get_api_services store_outcome req w
    = (Normal internal_error,
       mkWorld (db w) (trace w ++ [SelectSessionByToken tok])).
Proof.
  intros Ht Hne Hs Hnone Ho.
  pose proof (authenticate_accepts store_outcome _ _ _ _ Ht Hne Hs Ho) as Ha.
  rewrite (get_api_services_passed _ _ _ _ _ Ha), services_handler_spec.
  unfold resolved, embed_user. simpl. rewrite Hnone. reflexivity.
Qed.

(** X13: the route only reads: the store is the same after every request,
    and a services query is sent only after the authenticator passed, for
    the id of the owner of the one active session with the request's
    token. *)
Theorem services_route_reads_only_the_owner (req : Request) (w : World) :
  db (snd (get_api_services store_outcome req w)) = db w /\
  (forall uid,
      In (SelectServicesOfUser uid)
         (trace (snd (get_api_services store_outcome req w))) ->
      ~ In (SelectServicesOfUser uid) (trace w) ->
      exists tok s u,
        header_token (authorization req) = Some tok /\
        filter (active_with_token tok) (user_sessions (db w)) = [s] /\
        find (fun v => String.eqb (u_id v) (s_user_id s)) (users (db w)) = Some u /\
        u_id u = s_user_id s /\ uid = u_id u).
Proof.
  destruct (falsy (header_token (authorization req))) eqn:F.
  - pose proof (authenticate_without_token store_outcome _ w F) as Ha.
    rewrite (get_api_services_rejected _ _ _ _ _ Ha). simpl.
    split; [reflexivity|]. intros uid Hin Hn. contradiction.
  - destruct (truthy_cases _ F) as (c & t & E).
    pose proof (authenticate_with_token store_outcome _ w _ _ E) as Ha.
    assert (Hsel : forall uid,
              In (SelectServicesOfUser uid)
                 (trace w ++ [SelectSessionByToken (String c t)]) ->
              ~ In (SelectServicesOfUser uid) (trace w) -> False).
    { intros uid I N. apply in_app_or in I as [I|[I|[]]];
        [contradiction|discriminate]. }
    destruct (store_outcome (db w) (SelectSessionByToken (String c t)));
      try (rewrite (get_api_services_rejected _ _ _ _ _ Ha); simpl;
           split; [reflexivity|]; intros uid I N; exfalso;
           exact (Hsel uid I N)).
    destruct (filter (active_with_token (String c t)) (user_sessions (db w)))
      as [|s [|s' l]] eqn:Fl;
      try (rewrite (get_api_services_rejected _ _ _ _ _ Ha); simpl;
           split; [reflexivity|]; intros uid I N; exfalso;
           exact (Hsel uid I N)).
    rewrite (get_api_services_passed _ _ _ _ _ Ha), services_handler_spec.
    unfold resolved, embed_user. simpl.
    destruct (find (fun u => String.eqb (u_id u) (s_user_id s)) (users (db w)))
      as [u|] eqn:Fu; simpl.
    + split; [reflexivity|]. intros uid I N.
      apply in_app_or in I as [I|[I|[]]]; [exfalso; exact (Hsel uid I N)|].
      injection I as I.
      exists (String c t), s, u. repeat split; auto.
      apply (find_by_id_sound _ _ _ Fu).
    + split; [reflexivity|]. intros uid I N. exfalso; exact (Hsel uid I N).
Qed.

End ServicesProperties.

(** ** Start-up and the version route *)

(** X14: what start-up does is decided by the store URL, the public key,
    the client constructor and [app.listen]: the process exits, with code 1
    and before any client is created, exactly when the URL or the public
    key is absent or empty; otherwise it dies exactly when one of the two
    constructor calls throws or the server does not get to listen on the
    port, and else it listens; the port is [PORT], or 3000 when [PORT] is
    absent or empty. *)
Theorem startup_outcomes
    (client : option string -> option string -> option Client)
    (listen : string -> bool)
    (e : ProcessEnv) :
  (forall code,
      startup client listen e = Exited code <->
      code = 1 /\
      (falsy (SUPABASE_URL e) = true \/ falsy (SUPABASE_ANON_KEY e) = true)) /\
  (startup client listen e = Crashed <->
   config_missing e = false /\
   (client (SUPABASE_URL e) (SUPABASE_ANON_KEY e) = None \/
    client (SUPABASE_URL e) (SUPABASE_SERVICE_ROLE_KEY e) = None \/
    listen (listen_port e) = false)) /\
  (forall port c1 c2,
      startup client listen e = Listening port c1 c2 <->
      config_missing e = false /\
      client (SUPABASE_URL e) (SUPABASE_ANON_KEY e) = Some c1 /\
      client (SUPABASE_URL e) (SUPABASE_SERVICE_ROLE_KEY e) = Some c2 /\
      port = listen_port e /\
      listen port = true) /\
  (falsy (PORT e) = true -> listen_port e = "3000") /\
  (falsy (PORT e) = false -> PORT e = Some (listen_port e)).
Proof.
  assert (Hport : (falsy (PORT e) = true -> listen_port e = "3000") /\
                  (falsy (PORT e) = false -> PORT e = Some (listen_port e))).
  { unfold listen_port. destruct (PORT e) as [[|c p]|]; simpl;
      split; intros X; try discriminate; reflexivity. }
  unfold startup, config_missing.
  destruct (falsy (SUPABASE_URL e) || falsy (SUPABASE_ANON_KEY e)) eqn:G.
  - apply orb_true_iff in G. split; [|split; [|split; [|exact Hport]]].
    + intros code. split.
      * intros H; injection H as <-. auto.
      * intros [-> _]. reflexivity.
    + split; [discriminate|]. intros [H _]; discriminate.
    + intros port c1 c2. split; [discriminate|]. intros [H _]; discriminate.
  - assert (N : ~ (falsy (SUPABASE_URL e) = true \/
                   falsy (SUPABASE_ANON_KEY e) = true)).
    { intros H. apply orb_true_iff in H. rewrite G in H. discriminate. }
    cbv zeta.
    destruct (client (SUPABASE_URL e) (SUPABASE_ANON_KEY e)) as [d1|];
      [destruct (client (SUPABASE_URL e) (SUPABASE_SERVICE_ROLE_KEY e))
         as [d2|];
       [destruct (listen (listen_port e)) eqn:L|]|];
      (split; [|split; [|split; [|exact Hport]]]).
    + intros code. split; [discriminate|]. intros [_ H]; contradiction.
    + split; [discriminate|]. intros [_ [H|[H|H]]]; discriminate.
    + intros port c1 c2. split.
      * intros H. injection H as <- <- <-. repeat split; auto.
      * intros (_ & H1 & H2 & -> & _).
        injection H1 as <-. injection H2 as <-. reflexivity.
    + intros code. split; [discriminate|]. intros [_ H]; contradiction.
    + split; auto.
    + intros port c1 c2. split; [discriminate|].
      intros (_ & _ & _ & -> & H). rewrite L in H. discriminate.
    + intros code. split; [discriminate|]. intros [_ H]; contradiction.
    + split; auto.
    + intros port c1 c2. split; [discriminate|].
      intros (_ & _ & H & _); discriminate.
    + intros code. split; [discriminate|]. intros [_ H]; contradiction.
    + split; auto.
    + intros port c1 c2. split; [discriminate|].
      intros (_ & H & _); discriminate.
Qed.

(** X15: the version route answers 200 exactly when the store answers and
    exactly one row is flagged latest, and then the body carries that row;
    with no latest row, with several, or on a store error it answers the
    500 of the failed query, and when the call throws the 500 of the catch
    block. *)
Theorem version_needs_exactly_one_latest
    (outcome : Outcome) (extension_versions : list Version) :
  (status (get_api_version outcome extension_versions) = 200 <->
   outcome = Answered /\
   exists v, filter v_is_latest extension_versions = [v]) /\
  (forall v,
      outcome = Answered ->
      filter v_is_latest extension_versions = [v] ->
      get_api_version outcome extension_versions = version_success (Some v) /\
      In v extension_versions /\ v_is_latest v = true) /\
  (outcome <> Threw ->
   status (get_api_version outcome extension_versions) <> 200 ->
   get_api_version outcome extension_versions = version_not_fetched) /\
  (outcome = Threw ->
   get_api_version outcome extension_versions = internal_error).
Proof.
  unfold get_api_version, latestVersion.
  split; [|split; [|split]].
  - destruct outcome; simpl.
    + destruct (filter v_is_latest extension_versions) as [|v [|v' l]]; simpl.
      * split; [discriminate|]. intros [_ [v H]]; discriminate.
      * split; [|reflexivity]. intros _. split; [reflexivity|].
        exists v; reflexivity.
      * split; [discriminate|]. intros [_ [x H]]; discriminate.
    + split; [discriminate|]. intros [H _]; discriminate.
    + split; [discriminate|]. intros [H _]; discriminate.
  - intros v -> Hf. rewrite Hf. simpl. split; [reflexivity|].
    assert (I : In v (filter v_is_latest extension_versions))
      by (rewrite Hf; left; reflexivity).
    apply filter_In in I. exact I.
  - intros Hn Hs. destruct outcome; [|reflexivity|contradiction].
    simpl in *.
    destruct (filter v_is_latest extension_versions) as [|v [|v' l]];
      simpl in *; [reflexivity | contradiction | reflexivity].
  - intros ->. reflexivity.
Qed.

(** ** The further properties on concrete requests *)

Lemma inactive_session_is_rejected_witness :
  s_is_active revoked_session = false /\
  exists r,
    fst (authenticateToken always_answers (with_header (Some "Bearer tok-a"))
           (start revoked_db))
      = Normal (Respond r) /\
    status r = 403.
Proof.
  split; [reflexivity|].
  apply (inactive_session_is_rejected always_answers
           (with_header (Some "Bearer tok-a")) (start revoked_db) "tok-a").
  - reflexivity.
  - discriminate.
  - intros s [<-|[<-|[]]] E; [reflexivity|discriminate E].
Defined.

Lemma authenticate_accepts_iff_witness :
  fst (authenticateToken always_answers (with_header (Some "Bearer tok-b"))
         (start sample_db))
    = Normal (Next (resolved sample_db bob_session)) /\
  (forall ctx,
      fst (authenticateToken always_answers (with_header (Some "Bearer tok-a"))
             (start shared_token_db))
      <> Normal (Next ctx)).
Proof.
  split.
  - apply (proj2 (authenticate_accepts_iff always_answers
                    (with_header (Some "Bearer tok-b")) (start sample_db)
                    (resolved sample_db bob_session))).
    exists "tok-b", bob_session. repeat split. discriminate.
  - intros ctx H.
    apply (proj1 (authenticate_accepts_iff always_answers
                    (with_header (Some "Bearer tok-a")) (start shared_token_db)
                    ctx)) in H.
    destruct H as (tok & s & Ht & _ & _ & Hf & _).
    injection Ht as <-. discriminate Hf.
Defined.

Lemma parts_after_the_token_are_ignored_witness :
  authenticateToken always_answers
    (with_header (Some "Bearer tok-b and more")) (start sample_db)
  = authenticateToken always_answers
      (with_header (Some "Bearer tok-b")) (start sample_db).
Proof.
  apply (parts_after_the_token_are_ignored always_answers
           "Bearer" "tok-b" "and more"); reflexivity.
Defined.

Lemma empty_second_part_is_a_missing_credential_witness :
  authenticateToken always_answers
    (with_header (Some "Bearer  tok-b")) (start sample_db)
  = (Normal (Respond token_required), start sample_db).
Proof.
  apply (empty_second_part_is_a_missing_credential always_answers
           "Bearer" "tok-b"); [reflexivity|].
  right; reflexivity.
Defined.

Lemma login_then_authenticate_witness :
  exists user u ctx,
    login_success "tok-new" alice = login_success "tok-new" user /\
    fst (authenticateToken always_answers
           (with_header (Some "Bearer tok-new"))
           (snd (login always_answers same_text 5000 "tok-new"
                   (credentials (Some "a@x.com") (Some (JStr "correct")))
                   (start sample_db))))
      = Normal (Next ctx) /\
    j_session (req_session ctx)
      = issued_session 5000 "tok-new"
          (credentials (Some "a@x.com") (Some (JStr "correct"))) user /\
    req_user ctx = Some u /\ u_id u = u_id user /\ In u (users sample_db).
Proof.
  apply (login_then_authenticate always_answers same_text 5000 "tok-new"
           (credentials (Some "a@x.com") (Some (JStr "correct")))
           (with_header (Some "Bearer tok-new")) (start sample_db)).
  - exact alice_logs_in.
  - reflexivity.
  - discriminate.
  - reflexivity.
  - intros s [<-|[<-|[]]] E; discriminate E.
  - reflexivity.
  - reflexivity.
Defined.

Lemma session_inserted_only_after_verification_witness :
  exists email password hash user,
    body_email (credentials (Some "a@x.com") (Some (JStr "correct")))
      = Some email /\
    body_password (credentials (Some "a@x.com") (Some (JStr "correct")))
      = Some (JStr password) /\
    filter (with_email email) (users sample_db) = [user] /\
    u_password_hash user = Some hash /\
    same_text password hash = true /\
    mkSession "u-a" "tok-new" (Some "dev-9") (Some "10.0.0.7") (Some "curl")
      604805000 true
    = issued_session 5000 "tok-new"
        (credentials (Some "a@x.com") (Some (JStr "correct"))) user.
Proof.
  apply (session_inserted_only_after_verification always_answers same_text
           5000 "tok-new"
           (credentials (Some "a@x.com") (Some (JStr "correct")))
           (start sample_db)).
  - right; left; reflexivity.
  - intros [].
Defined.

Lemma failed_or_ambiguous_lookup_is_401_witness :
  same_text "correct" "correct" = true /\
  login always_answers same_text 5000 "tok-new"
    (credentials (Some "a@x.com") (Some (JStr "correct"))) (start twin_db)
  = (Normal invalid_credentials,
     mkWorld twin_db [SelectUserByEmail "a@x.com"]) /\
  login always_errors same_text 5000 "tok-new"
    (credentials (Some "a@x.com") (Some (JStr "correct"))) (start sample_db)
  = (Normal invalid_credentials,
     mkWorld sample_db [SelectUserByEmail "a@x.com"]).
Proof.
  split; [reflexivity|]. split.
  - apply (failed_or_ambiguous_lookup_is_401 always_answers same_text 5000
             "tok-new" (credentials (Some "a@x.com") (Some (JStr "correct")))
             (start twin_db) "a@x.com" (JStr "correct"));
      [reflexivity | discriminate | reflexivity | reflexivity |].
    right. split; [reflexivity|]. do 3 eexists. reflexivity.
  - apply (failed_or_ambiguous_lookup_is_401 always_errors same_text 5000
             "tok-new" (credentials (Some "a@x.com") (Some (JStr "correct")))
             (start sample_db) "a@x.com" (JStr "correct"));
      [reflexivity | discriminate | reflexivity | reflexivity |].
    left; reflexivity.
Defined.

Lemma services_listing_is_complete_and_ordered_witness :
  exists rows,
    fst (get_api_services always_answers (with_header (Some "Bearer tok-a"))
           (start sample_db))
      = Normal (services_success rows) /\
    Permutation rows (filter (active_of_user "u-a") sample_services) /\
    StronglySorted newest_first rows.
Proof.
  destruct (services_listing_is_complete_and_ordered always_answers
              (with_header (Some "Bearer tok-a")) (start sample_db)
              "tok-a" alice_session alice
              eq_refl ltac:(discriminate) eq_refl eq_refl eq_refl eq_refl)
    as (rows & H1 & H2 & H3 & _).
  exists rows. split; [exact H1|]. split; [exact H2|exact H3].
Defined.

Lemma session_without_owner_gets_500_witness :
  get_api_services always_answers (with_header (Some "Bearer tok-a"))
    (start orphan_db)
  = (Normal internal_error, mkWorld orphan_db [SelectSessionByToken "tok-a"]).
Proof.
  apply (session_without_owner_gets_500 always_answers
           (with_header (Some "Bearer tok-a")) (start orphan_db)
           "tok-a" alice_session);
    [reflexivity | discriminate | reflexivity | reflexivity | reflexivity].
Defined.

Lemma services_route_reads_only_the_owner_witness :
  db (snd (get_api_services always_answers
             (with_header (Some "Bearer tok-a")) (start sample_db)))
    = sample_db /\
  exists tok s u,
    header_token (authorization (with_header (Some "Bearer tok-a"))) = Some tok /\
    filter (active_with_token tok) (user_sessions sample_db) = [s] /\
    find (fun v => String.eqb (u_id v) (s_user_id s)) (users sample_db) = Some u /\
    u_id u = s_user_id s /\ "u-a" = u_id u.
Proof.
  destruct (services_route_reads_only_the_owner always_answers
              (with_header (Some "Bearer tok-a")) (start sample_db))
    as [Hdb Hq].
  split; [exact Hdb|].
  apply (Hq "u-a").
  - right; left; reflexivity.
  - intros [].
Defined.

Lemma startup_outcomes_witness :
  startup createClient (fun port => String.eqb port "3000")
    (sample_env (Some "service-key"))
    = Listening "3000"
        (mkClient (Some "https://db.example") (Some "anon-key"))
        (mkClient (Some "https://db.example") (Some "service-key")) /\
  startup createClient (fun port => String.eqb port "3000")
    (mkEnv (Some "https://db.example") (Some "anon-key") (Some "service-key")
       (Some "99999"))
    = Crashed /\
  startup createClient (fun port => String.eqb port "3000")
    (mkEnv (Some "") (Some "anon-key") (Some "k") None)
    = Exited 1.
Proof.
  split; [|split].
  - apply (proj2 (proj1 (proj2 (proj2 (startup_outcomes createClient
                                         (fun port => String.eqb port "3000")
                                         (sample_env (Some "service-key")))))
                   "3000" _ _)).
    repeat split; reflexivity.
  - apply (proj2 (proj1 (proj2 (startup_outcomes createClient
                                  (fun port => String.eqb port "3000")
                                  (mkEnv (Some "https://db.example")
                                     (Some "anon-key") (Some "service-key")
                                     (Some "99999")))))).
    split; [reflexivity|]. right; right; reflexivity.
  - apply (proj2 (proj1 (startup_outcomes createClient
                           (fun port => String.eqb port "3000")
                           (mkEnv (Some "") (Some "anon-key") (Some "k") None))
                   1)).
    split; [reflexivity|]. left; reflexivity.
Defined.

Lemma version_needs_exactly_one_latest_witness :
  status (get_api_version Answered sample_versions) = 200 /\
  get_api_version Answered [] = version_not_fetched.
Proof.
  destruct (version_needs_exactly_one_latest Answered sample_versions)
    as (H1 & _).
  destruct (version_needs_exactly_one_latest Answered []) as (_ & _ & H3 & _).
  split.
  - apply (proj2 H1). split; [reflexivity|]. eexists; reflexivity.
  - apply H3; [discriminate|]. simpl. discriminate.
Defined.
